(* ===== verification/_CoqProject ===== *)
-Q . S2P
Prelude.v
Catalog.v
Topic.v
Structure.v
Plan.v
Assembler.v
Fallback.v
Progress.v
Registry.v
