(* ===== verification/Prelude.v ===== *)
(** * A verification development of the learning-roadmap service (src/main.py)

    The program is one FastAPI module.  A request to [POST /generate-roadmap]
    classifies the learner's goal into a topic ([detect_topic]), obtains a
    skeletal week structure from an external chat-completion service or a
    fixed default ([get_ai_roadmap_structure], [create_basic_structure]),
    merges it with two static catalogs into a full weekly plan
    ([enhance_with_real_content]), and stores the plan with an empty progress
    record in the process-wide dictionary [progress_db]; any exception in
    that pipeline is caught and answered with an independently written
    fallback plan ([create_fallback_roadmap]) that is not stored.
    [POST /update-progress] looks the plan up and records a completed week,
    a completed project and a note; [GET /roadmap/{id}] and
    [GET /visual-timeline/{id}] read the entry back.

    ** Files, in dependency order
    - [Prelude]: Python's exceptions as the [result] type with its [let*]
      notation (scope [py_scope]), dictionary and list subscripts
      ([py_getitem], [getkey], [py_index]), [append_if_absent], decimal
      printing [py_str_nat] with its parser, Python's round-half-to-even
      [py_round_div], the hint databases [roadmap]/[roadmap_rw] and the
      tactics [destruct_binds] and [py_hyps].
    - [Catalog]: [REAL_RESOURCES] and [REAL_PROJECTS] (lines 42-114) as
      stdpp [gmap string], resource and project records, the [topic] tags.
    - [Topic] (module [Topic]): [detect_topic] (lines 157-167) with ASCII
      lower-casing and substring search.
    - [Structure] (module [Structure]): the request body, the structure
      dictionary with optional keys, the default structure, the outbound
      request and [get_ai_roadmap_structure] (lines 169-248).  The external
      service is a Section variable [openrouter], a function from the
      request to its outcome.
    - [Plan]: the roadmap dictionary as records, and the shape invariant
      [plan_wf] (week numbers 1..n, n <= 4).
    - [Assembler] (module [Assembler]): [enhance_with_real_content] and
      [generate_timeline_data] (lines 250-325), over any pair of catalogs.
    - [Fallback] (module [Fallback]): [create_fallback_roadmap] (lines
      327-434).
    - [Progress] (module [Progress]): the progress record, the updates of
      [update_progress] (lines 442-464) as [record_progress], the percentage
      in tenths, and the abstract specification (a [gset] of weeks).
    - [Registry] (module [Registry]): the store interface [PlanStore] /
      [PlanStoreLaws] (a typeclass; the handlers and their theorems use only
      it), the handlers [generate_roadmap], [update_progress], [get_roadmap],
      [get_visual_timeline] and [root], the transition relation [step] with
      [reachable], and the [gmap] instance that is [progress_db].

    ** What the theorems show
    - Store invariant (C1, C18): every reachable store holds only
      well-formed plans under their own ids with duplicate-free completed
      weeks, by rule induction over [rtc step]; the visual timeline read
      back from such a store is numbered 1..n and marks exactly the
      recorded weeks.
    - Assembler (C2, C3, C9-C11): the plan shape; the exact condition under
      which assembly raises; the per-week resource policy as a prefix of the
      filtered catalog; every assemblable structure is assembled, each week
      taking the project at index [min j (len - 1)]; the time estimate
      parsed back, bounded by 30 hours.
    - Progress (C4, C5, C12, C13, C17): the update response on reachable
      stores; refinement of the completed-weeks list by a set, for one
      update and for any sequence of update requests; the percentage as the
      unambiguous nearest tenth; duplicate accumulation in
      [completed_projects].
    - Handlers (C6, C7, C14-C16): 404 on unknown ids; generation always
      answers with a well-formed plan; the fallback plan is never stored;
      an id collision replaces the stored entry and its progress; without a
      credential the deterministic 4-week default is stored.
    - Classifier (C8, C21): the priority-ordered substring contract; a goal
      containing "ai" anywhere (as in "paint") is never [general].
    - Findings, each for all inputs (C19-C23): any service answering with
      an empty theme list yields a stored 0-week plan (a Section hypothesis
      on the service); on any reachable store a new week past the total
      reports more than 100 percent; the fallback's week 2 always breaks the
      type policy and its timeline is never derived from its weeks.
    - Unclaimed examples evaluate the spec's generation and update examples
      and the dropped empty note on concrete inputs.

    ** Modelling choices, bounds and what is not modelled
    - Strings are Stdlib strings of ASCII characters; [str.lower] is ASCII
      lower-casing.  Week numbers are [Z] (Python [int]); plan indices [nat].
    - Percentages are in tenths.  The code divides floats; the model rounds
      the exact quotient half to even.  Stored plans have at most 4 weeks
      (C1), and for totals 1..4 the quotient is never a tie and is at least a
      sixth of a tenth from one (C12), so the float result agrees for any
      realistic count.
    - No fuel is needed: every loop of the code is a bounded [for] over a
      list, modelled by structural recursion ([build_weeks] runs
      [min 4 (len themes)] times).
    - The values drawn from the environment ([uuid4()[:8]], [datetime.now],
      [os.getenv], the service's answer) are arguments.  An AI answer is a
      JSON object whose present keys hold strings and lists of strings, any
      other JSON value, or unparsable content; objects whose keys hold other
      JSON types are not modelled.
    - Not modelled: FastAPI/CORS/uvicorn wiring and dotenv (lines 1-24,
      513-515), pydantic's 422 validation, the HTTP transport and timeout,
      the [print] of the caught error, and the key order of dictionaries.
      Requests are handled one at a time; the unsynchronised concurrency of
      the spec's section 5 is outside the model. *)

From stdpp Require Import base gmap strings list.
From Stdlib Require Import ZArith Lia DecimalString DecimalNat.

(** ** Python exceptions and the result type of fallible code

    Every function of [src/main.py] that can raise is modelled as returning
    a [result]: [Ok v] for a normal return, [Raise e] for an exception.  The
    exceptions are the ones the code can raise: [KeyError] on a missing
    dictionary key, [IndexError] on a list index out of range, [TypeError]
    on indexing a value that is not a dictionary, and
    [HTTPException] (FastAPI's, with its status code and detail). *)

Inductive exn : Type :=
  | KeyError (key : string)
  | IndexError
  | TypeError
  | HTTPException (status_code : Z) (detail : string).

#[export] Instance exn_eq_dec : EqDecision exn.
Proof. solve_decision. Defined.

Inductive result (A : Type) : Type :=
  | Ok (a : A)
  | Raise (e : exn).
Arguments Ok {A} a.
Arguments Raise {A} e.

Definition result_bind {A B} (m : result A) (k : A -> result B) : result B :=
  match m with
  | Ok a => k a
  | Raise e => Raise e
  end.

Declare Scope py_scope.
Delimit Scope py_scope with py.
Notation "'let*' x := m 'in' k" := (result_bind m (fun x => k))
  (at level 10, x name, m at level 100, k at level 200) : py_scope.
Open Scope py_scope.

Definition option_of_result {A} (r : result A) : option A :=
  match r with Ok a => Some a | Raise _ => None end.

Definition is_ok {A} (r : result A) : bool :=
  match r with Ok _ => true | Raise _ => false end.

(** [d[k]] on a dictionary: [KeyError k] when the key is absent. *)
Definition py_getitem {A} (d : gmap string A) (k : string) : result A :=
  match d !! k with
  | Some v => Ok v
  | None => Raise (KeyError k)
  end.

(** [d.get(k, default)]. *)
Definition py_get {A} (d : gmap string A) (k : string) (dflt : A) : A :=
  default dflt (d !! k).

(** [d[k]] on a dictionary whose key [k] may be missing, the key's value
    being given as an option. *)
Definition getkey {A} (k : string) (o : option A) : result A :=
  match o with
  | Some v => Ok v
  | None => Raise (KeyError k)
  end.

(** [l[i]] for a non-negative index: [IndexError] out of range. *)
Definition py_index {A} (l : list A) (i : nat) : result A :=
  match l !! i with
  | Some x => Ok x
  | None => Raise IndexError
  end.

(** [if x not in l: l.append(x)]. *)
Definition append_if_absent `{EqDecision A} (x : A) (l : list A) : list A :=
  if decide (x ∈ l) then l else l ++ [x].

(** [str(n)] of a non-negative integer: its decimal digits. *)
Definition py_str_nat (n : nat) : string :=
  NilEmpty.string_of_uint (Nat.to_uint n).

(** [int(s)] restricted to strings of decimal digits, the inverse of
    [py_str_nat]. *)
Definition py_int_of_string (s : string) : option nat :=
  Nat.of_uint <$> NilEmpty.uint_of_string s.

(** [round(num / den, 0)] with Python's round-half-to-even, for [den > 0]. *)
Definition py_round_div (num den : Z) : Z :=
  let q := (num / den)%Z in
  let r := (num mod den)%Z in
  if Z.ltb (2 * r) den then q
  else if Z.ltb den (2 * r) then (q + 1)%Z
  else if Z.even q then q else (q + 1)%Z.

(** [sep.join(l)]. *)
Fixpoint py_join (sep : string) (l : list string) : string :=
  match l with
  | [] => ""
  | [x] => x
  | x :: l' => x +:+ sep +:+ py_join sep l'
  end.

(** The newline and double-quote characters, for the multi-line string
    literals of the source. *)
Definition nl : string := String (Ascii.ascii_of_nat 10) EmptyString.
Definition dq : string := String (Ascii.ascii_of_nat 34) EmptyString.

(** Splitting at the first occurrence of a character, as
    [s.split(c, 1)] does when [c] occurs. *)
Fixpoint split_at (c : Ascii.ascii) (s : string) : option (string * string) :=
  match s with
  | EmptyString => None
  | String x s' =>
      if Ascii.ascii_dec x c then Some (EmptyString, s')
      else (fun '(a, b) => (String x a, b)) <$> split_at c s'
  end.

Definition is_digit (c : Ascii.ascii) : bool :=
  (48 <=? Ascii.nat_of_ascii c)%nat && (Ascii.nat_of_ascii c <=? 57)%nat.

(** Truthiness of an optional string: [if s:] is false on [None] and on
    the empty string. *)
Definition py_truthy_str (o : option string) : bool :=
  match o with
  | Some s => negb (String.eqb s "")
  | None => false
  end.

(** ** Automation *)

Create HintDb roadmap discriminated.
Create Rewrite HintDb roadmap_rw.

Ltac inv_clear H := inversion H; subst; clear H.

(** Split every [result_bind] in the goal or a hypothesis on the result
    it scrutinises. *)
Ltac destruct_binds :=
  repeat match goal with
  | |- context [result_bind ?m _] =>
      let E := fresh "E" in destruct m eqn:E; cbn [result_bind]
  | H : context [result_bind ?m _] |- _ =>
      let E := fresh "E" in destruct m eqn:E; cbn [result_bind] in H
  end.

(** ** Generic lemmas shared by the components *)

Section ResultLemmas.
Context {A B : Type}.

Lemma result_bind_ok (a : A) (k : A -> result B) :
  result_bind (Ok a) k = k a.
Proof. reflexivity. Qed.

Lemma result_bind_raise (e : exn) (k : A -> result B) :
  result_bind (Raise e) k = Raise e.
Proof. reflexivity. Qed.

Lemma result_bind_Ok_inv (m : result A) (k : A -> result B) (b : B) :
  result_bind m k = Ok b -> exists a, m = Ok a /\ k a = Ok b.
Proof. destruct m; cbn; [eauto | discriminate]. Qed.

Lemma py_index_Ok (l : list A) i x : py_index l i = Ok x <-> l !! i = Some x.
Proof.
  unfold py_index. destruct (l !! i); split; intros H; congruence.
Qed.

Lemma getkey_Ok k (o : option A) v : getkey k o = Ok v <-> o = Some v.
Proof. destruct o; cbn; split; congruence. Qed.

Lemma py_index_lt (l : list A) i : i < length l -> is_ok (py_index l i) = true.
Proof.
  intros Hi. unfold py_index. destruct (lookup_lt_is_Some_2 l i Hi) as [x ->].
  reflexivity.
Qed.

Lemma py_index_ge (l : list A) i : length l <= i -> py_index l i = Raise IndexError.
Proof. intros Hi. unfold py_index. by rewrite lookup_ge_None_2. Qed.
End ResultLemmas.

(** Turn the successful subscripts among the hypotheses into lookups. *)
Ltac py_hyps :=
  repeat match goal with
  | H : getkey _ _ = Ok _ |- _ => apply getkey_Ok in H
  | H : py_index _ _ = Ok _ |- _ => apply py_index_Ok in H
  | H : Ok _ = Ok _ |- _ => injection H as H
  end; subst.

#[export] Hint Rewrite @result_bind_ok @result_bind_raise : roadmap_rw.

Section AppendIfAbsent.
Context `{EqDecision A}.

Lemma append_if_absent_elem (x y : A) (l : list A) :
  y ∈ append_if_absent x l <-> y = x \/ y ∈ l.
Proof.
  unfold append_if_absent. case_decide.
  - split; [by right | intros [->|]; done].
  - rewrite elem_of_app, list_elem_of_singleton. tauto.
Qed.

Lemma append_if_absent_NoDup (x : A) (l : list A) :
  NoDup l -> NoDup (append_if_absent x l).
Proof.
  unfold append_if_absent. intros Hl. case_decide; [done |].
  apply NoDup_app. split_and!; [done | | apply NoDup_singleton].
  intros y Hy ->%list_elem_of_singleton. done.
Qed.

Lemma append_if_absent_present (x : A) (l : list A) :
  x ∈ l -> append_if_absent x l = l.
Proof. unfold append_if_absent. intros H. by case_decide. Qed.

Lemma append_if_absent_absent (x : A) (l : list A) :
  x ∉ l -> append_if_absent x l = l ++ [x].
Proof. unfold append_if_absent. intros H. by case_decide. Qed.

Lemma append_if_absent_prefix (x : A) (l : list A) :
  l `prefix_of` append_if_absent x l.
Proof. unfold append_if_absent. case_decide; [done | by eexists]. Qed.
End AppendIfAbsent.

#[export] Hint Resolve append_if_absent_NoDup : roadmap.

(** Decimal printing and parsing of naturals are inverse. *)
Lemma py_int_of_py_str (n : nat) : py_int_of_string (py_str_nat n) = Some n.
Proof.
  unfold py_int_of_string, py_str_nat. rewrite NilEmpty.usu. cbn.
  by rewrite Unsigned.of_to.
Qed.

Lemma string_app_nil (t : string) : "" +:+ t = t.
Proof. reflexivity. Qed.

Lemma string_app_cons (x : Ascii.ascii) (s t : string) :
  String x s +:+ t = String x (s +:+ t).
Proof. reflexivity. Qed.

(** A decimal numeral holds no character but digits, so splitting a
    numeral followed by a non-digit separator recovers the numeral. *)
Lemma split_at_py_str (c : Ascii.ascii) (n : nat) (rest : string) :
  is_digit c = false ->
  split_at c (py_str_nat n +:+ String c rest) = Some (py_str_nat n, rest).
Proof.
  intros Hc. unfold py_str_nat. generalize (Nat.to_uint n) as d.
  induction d as [|d IH|d IH|d IH|d IH|d IH|d IH|d IH|d IH|d IH|d IH];
    cbn [NilEmpty.string_of_uint];
    rewrite ?string_app_nil, ?string_app_cons; cbn [split_at];
    [destruct (Ascii.ascii_dec c c); [done | congruence] |..];
    rewrite IH; destruct (Ascii.ascii_dec _ c) as [<-|]; try done;
    vm_compute in Hc; discriminate.
Qed.

Lemma py_str_nat_inj (n m : nat) : py_str_nat n = py_str_nat m -> n = m.
Proof.
  intros H. apply (f_equal py_int_of_string) in H.
  rewrite !py_int_of_py_str in H. congruence.
Qed.

Section Rounding.
Local Open Scope Z_scope.

(** [py_round_div] is a nearest integer to [num / den]: its distance to
  the exact quotient is at most one half. *)
Lemma py_round_div_nearest (num den : Z) :
0 < den ->
den * (2 * py_round_div num den - 1) <= 2 * num <= den * (2 * py_round_div num den + 1).
Proof.
intros Hd. unfold py_round_div.
pose proof (Z.div_mod num den ltac:(lia)) as Hdm.
pose proof (Z.mod_pos_bound num den Hd) as Hb.
set (q := num / den) in *. set (r := num mod den) in *.
destruct (Z.ltb_spec (2 * r) den); [lia |].
destruct (Z.ltb_spec den (2 * r)); [lia |].
destruct (Z.even q); lia.
Qed.

(** When [num / den] is exactly an integer, rounding returns it. *)
Lemma py_round_div_exact (k den : Z) : 0 < den -> py_round_div (k * den) den = k.
Proof.
intros Hd. unfold py_round_div.
rewrite Z.div_mul, Z.mod_mul, Z.mul_0_r by lia.
destruct (Z.ltb_spec 0 den); [reflexivity | lia].
Qed.
End Rounding.
