(* ===== verification/Catalog.v ===== *)
(** * Catalog: the static resource and project tables of src/main.py

    [REAL_PROJECTS] (lines 43-92) and [REAL_RESOURCES] (lines 95-114) are
    module-level dictionaries from a topic key to a list of dictionaries.
    Each inner dictionary is modelled as a record whose optional fields are
    the keys only some entries carry; the outer dictionaries are stdpp
    [gmap string].  The file also holds the topic tags the classifier
    returns, and the shape facts of the tables that the assembler's theorems
    use. *)

From stdpp Require Import base gmap strings list.
From S2P Require Import Prelude.

(** The value of a resource's ["type"] key. *)
Inductive rtype : Type := Video | Course | Article | Project.

#[export] Instance rtype_eq_dec : EqDecision rtype.
Proof. solve_decision. Defined.

(** A resource dictionary: ["type"], ["title"], ["url"] always; ["platform"],
    ["channel"], ["source"], ["free"] on some entries. *)
Record resource : Type := mk_resource {
  r_type : rtype;
  r_title : string;
  r_url : string;
  r_platform : option string;
  r_channel : option string;
  r_source : option string;
  r_free : option bool
}.

#[export] Instance resource_eq_dec : EqDecision resource.
Proof. solve_decision. Defined.

(** A project template dictionary: ["title"], ["description"],
    ["github_template"], ["skills"], and ["demo_url"] on the catalog entries
    (the placeholders the code builds have none). *)
Record project : Type := mk_project {
  p_title : string;
  p_description : string;
  p_github_template : string;
  p_skills : list string;
  p_demo_url : option string
}.

#[export] Instance project_eq_dec : EqDecision project.
Proof. solve_decision. Defined.

(** The topic strings [detect_topic] returns (lines 157-167). *)
Inductive topic : Type := TPython | TWeb | TData | TGeneral.

#[export] Instance topic_eq_dec : EqDecision topic.
Proof. solve_decision. Defined.

Definition topic_key (t : topic) : string :=
  match t with
  | TPython => "python"
  | TWeb => "web"
  | TData => "data"
  | TGeneral => "general"
  end.

Definition video (title url platform channel : string) : resource :=
  mk_resource Video title url (Some platform) (Some channel) None None.
Definition course (title url platform : string) : resource :=
  mk_resource Course title url (Some platform) None None (Some true).
Definition article (title url src : string) : resource :=
  mk_resource Article title url None None (Some src) None.
Definition project_res (title url platform : string) : resource :=
  mk_resource Project title url (Some platform) None None None.

Definition REAL_PROJECTS : gmap string (list project) :=
  list_to_map [
    ("python", [
      mk_project "Build a Personal Finance Tracker"
        "Create a command-line app to track expenses and income"
        "https://github.com/trekhleb/learn-python"
        ["File I/O"; "Data Structures"; "Basic Algorithms"]
        (Some "https://replit.com/@python/finance-tracker");
      mk_project "Web Scraper for News Articles"
        "Scrape news websites and save articles to a database"
        "https://github.com/scrapinghub/python-web-scraper"
        ["Web Scraping"; "HTML Parsing"; "Database"]
        (Some "https://replit.com/@python/web-scraper")]);
    ("web", [
      mk_project "Todo List Application"
        "Build a full-stack todo app with user authentication"
        "https://github.com/spring-projects/spring-petclinic"
        ["HTML/CSS"; "JavaScript"; "Backend API"]
        (Some "https://todomvc.com");
      mk_project "Weather Dashboard"
        "Create a dashboard showing weather from multiple cities"
        "https://github.com/public-apis/public-apis"
        ["API Integration"; "Frontend"; "Data Visualization"]
        (Some "https://openweathermap.org/api")]);
    ("data", [
      mk_project "COVID-19 Data Analysis"
        "Analyze COVID-19 trends and create visualizations"
        "https://github.com/owid/covid-19-data"
        ["Data Analysis"; "Visualization"; "Pandas"]
        (Some "https://ourworldindata.org/coronavirus");
      mk_project "Customer Segmentation"
        "Use clustering algorithms to segment customers"
        "https://github.com/scikit-learn/scikit-learn"
        ["Machine Learning"; "Clustering"; "Analysis"]
        (Some "https://scikit-learn.org/stable/auto_examples/cluster/plot_kmeans_digits.html")])].

Definition REAL_RESOURCES : gmap string (list resource) :=
  list_to_map [
    ("python", [
      video "Python for Beginners - Full Course" "https://www.youtube.com/watch?v=_uQrJ0TkZlc"
        "YouTube" "Programming with Mosh";
      course "Python for Everybody" "https://www.coursera.org/specializations/python" "Coursera";
      article "Python Official Tutorial" "https://docs.python.org/3/tutorial/" "Python.org";
      project_res "100 Days of Code: Python" "https://github.com/100DaysOfCode-Python" "GitHub"]);
    ("web", [
      video "HTML & CSS Full Course" "https://www.youtube.com/watch?v=mU6anWqZJcc"
        "YouTube" "freeCodeCamp";
      course "The Odin Project" "https://www.theodinproject.com/" "Odin Project";
      article "MDN Web Docs" "https://developer.mozilla.org/en-US/" "Mozilla";
      project_res "Frontend Mentor Challenges" "https://www.frontendmentor.io/" "Frontend Mentor"]);
    ("data", [
      video "Data Science Full Course" "https://www.youtube.com/watch?v=ua-CiDNNj30"
        "YouTube" "edureka!";
      course "Data Science with Python" "https://www.kaggle.com/learn/python" "Kaggle";
      article "Towards Data Science" "https://towardsdatascience.com/" "Medium";
      project_res "Kaggle Competitions" "https://www.kaggle.com/competitions" "Kaggle"])].

(** ** Shape of the tables *)

(** The keys of both tables are exactly the three non-general topics. *)
Lemma REAL_RESOURCES_keys (t : topic) :
  is_Some (REAL_RESOURCES !! topic_key t) <-> t <> TGeneral.
Proof.
  destruct t; vm_compute; split; intros H; try done; try (by eexists);
    destruct H; done.
Qed.

Lemma REAL_PROJECTS_keys (t : topic) :
  is_Some (REAL_PROJECTS !! topic_key t) <-> t <> TGeneral.
Proof.
  destruct t; vm_compute; split; intros H; try done; try (by eexists);
    destruct H; done.
Qed.

(** Every resource list carries one resource of each type, in the order
    Video, Course, Article, Project. *)
Lemma REAL_RESOURCES_types (k : string) (rs : list resource) :
  REAL_RESOURCES !! k = Some rs -> r_type <$> rs = [Video; Course; Article; Project].
Proof.
  intros H. unfold REAL_RESOURCES in H.
  apply elem_of_list_to_map_2 in H.
  repeat (apply elem_of_cons in H as [H|H]; [by simplify_eq |]).
  by apply elem_of_nil in H.
Qed.

(** Every project list holds exactly two templates. *)
Lemma REAL_PROJECTS_length (k : string) (ps : list project) :
  REAL_PROJECTS !! k = Some ps -> length ps = 2.
Proof.
  intros H. unfold REAL_PROJECTS in H.
  apply elem_of_list_to_map_2 in H.
  repeat (apply elem_of_cons in H as [H|H]; [by simplify_eq |]).
  by apply elem_of_nil in H.
Qed.
