(* ===== verification/Topic.v ===== *)
(** * Topic classifier: [detect_topic] (src/main.py lines 157-167)

    The goal is lower-cased and tested against three keyword lists in the
    fixed order python, web, data; the first list with a keyword that occurs
    as a substring wins, and [general] is returned otherwise.  Python's
    [str.lower] is modelled on ASCII strings ([A]..[Z] to [a]..[z]), and
    [word in s] is substring search.  [generate_roadmap] already passes
    [goal.lower()], so the handler lower-cases twice; the theorems show this
    is harmless. *)

From stdpp Require Import base strings list.
From Stdlib Require Import Ascii.
From S2P Require Import Prelude Catalog.

Module Topic.

(** [c.lower()] on one ASCII character. *)
Definition ascii_lower (c : ascii) : ascii :=
  let n := nat_of_ascii c in
  if (65 <=? n)%nat && (n <=? 90)%nat then ascii_of_nat (n + 32) else c.

(** [s.lower()]. *)
Fixpoint str_lower (s : string) : string :=
  match s with
  | EmptyString => EmptyString
  | String c s' => String (ascii_lower c) (str_lower s')
  end.

(** [pat in s]: [pat] occurs in [s] at some position. *)
Fixpoint str_contains (pat s : string) : bool :=
  String.prefix pat s ||
  match s with
  | EmptyString => false
  | String _ s' => str_contains pat s'
  end.

(** [any(word in s for word in words)]. *)
Definition any_in (words : list string) (s : string) : bool :=
  existsb (fun w => str_contains w s) words.

Definition python_words : list string := ["python"; "programming"; "coding"; "software"].
Definition web_words : list string :=
  ["web"; "frontend"; "backend"; "fullstack"; "html"; "css"; "javascript"].
Definition data_words : list string :=
  ["data"; "machine learning"; "ai"; "analysis"; "visualization"].

Definition detect_topic (goal : string) : topic :=
  let goal_lower := str_lower goal in
  if any_in python_words goal_lower then TPython
  else if any_in web_words goal_lower then TWeb
  else if any_in data_words goal_lower then TData
  else TGeneral.

(** ** Lemmas on the string operations *)

Lemma ascii_lower_idem (c : ascii) : ascii_lower (ascii_lower c) = ascii_lower c.
Proof.
  destruct c as [[] [] [] [] [] [] [] []]; reflexivity.
Qed.

Lemma str_lower_idem (s : string) : str_lower (str_lower s) = str_lower s.
Proof. induction s as [|c s IH]; cbn; [done | by rewrite ascii_lower_idem, IH]. Qed.


Lemma prefix_spec (p s : string) : String.prefix p s = true <-> exists b, s = (p ++ b)%string.
Proof.
  revert s. induction p as [|c p IH]; intros [|c' s]; cbn.
  - split; [by exists EmptyString | done].
  - split; [by eexists | done].
  - split; [done | by intros [b Hb]].
  - destruct (ascii_dec c c') as [->|Hne].
    + rewrite IH. split; intros [b Hb]; exists b; [by rewrite Hb | by injection Hb].
    + split; [done | intros [b Hb]; by injection Hb].
Qed.

(** [str_contains] is substring search. *)
Lemma str_contains_spec (p s : string) :
  str_contains p s = true <-> exists a b, s = (a ++ p ++ b)%string.
Proof.
  induction s as [|c s IH]; cbn [str_contains]; rewrite orb_true_iff, prefix_spec.
  - split.
    + intros [[b Hb]|]; [by exists EmptyString, b | done].
    + intros [[|? ?] [b Hb]]; [left; by exists b | discriminate].
  - rewrite IH. split.
    + intros [[b Hb] | [a [b ->]]]; [by exists EmptyString, b |].
      by exists (String c a), b.
    + intros [[|c' a] [b Hb]]; [left; by exists b |].
      right. injection Hb as -> ->. by exists a, b.
Qed.

Lemma any_in_spec (ws : list string) (s : string) :
  any_in ws s = true <-> exists w, w ∈ ws /\ str_contains w s = true.
Proof.
  unfold any_in. rewrite existsb_exists.
  setoid_rewrite list_elem_of_In. done.
Qed.

(** Some keyword of [ws] occurs as a substring of [s]. *)
Definition occurs (ws : list string) (s : string) : Prop :=
  exists w a b, w ∈ ws /\ s = (a ++ w ++ b)%string.

Lemma any_in_occurs (ws : list string) (s : string) :
  any_in ws s = true <-> occurs ws s.
Proof.
  rewrite any_in_spec. unfold occurs. setoid_rewrite str_contains_spec.
  split; [intros (w & ? & a & b & ?) | intros (w & a & b & ? & ?)]; eauto 10.
Qed.

Lemma any_in_not_occurs (ws : list string) (s : string) :
  any_in ws s = false <-> ~ occurs ws s.
Proof. rewrite <- any_in_occurs. destruct (any_in ws s); intuition congruence. Qed.

(** ** Properties of the classifier *)

(** C8: the classifier's contract (spec 4.1): the category is decided by
    which keyword lists occur as substrings of the lower-cased goal, in the
    priority order python, web, data, and [general] when none occurs. *)
Theorem detect_topic_spec (goal : string) :
  let g := str_lower goal in
  (detect_topic goal = TPython <-> occurs python_words g) /\
  (detect_topic goal = TWeb <-> ~ occurs python_words g /\ occurs web_words g) /\
  (detect_topic goal = TData <->
     ~ occurs python_words g /\ ~ occurs web_words g /\ occurs data_words g) /\
  (detect_topic goal = TGeneral <->
     ~ occurs python_words g /\ ~ occurs web_words g /\ ~ occurs data_words g).
Proof.
  cbn zeta. unfold detect_topic.
  rewrite <- !any_in_occurs.
  destruct (any_in python_words _), (any_in web_words _), (any_in data_words _);
    intuition congruence.
Qed.

(** Lower-casing the goal before classifying it, as [generate_roadmap]
    does, does not change the topic. *)
Lemma detect_topic_lower (goal : string) :
  detect_topic (str_lower goal) = detect_topic goal.
Proof. unfold detect_topic. by rewrite str_lower_idem. Qed.


(** ** Examples *)

(** The spec's example goal is classified as python. *)
Example detect_topic_spec_example : detect_topic "Learn Python basics" = TPython.
Proof. vm_compute. reflexivity. Qed.

End Topic.
