(* ===== verification/Structure.v ===== *)
(** * Structure provider: [get_ai_roadmap_structure] and
      [create_basic_structure] (src/main.py lines 26-32, 169-248)

    The request body [EnhancedUserInput] is a record.  A "structure" is the
    dictionary the provider returns; since it may come from the language
    model, each of its keys may be missing, so each field is an [option].
    The model also may return JSON that is not an object at all
    ([RSNonObject]); the assembler then fails on its first subscript.

    The external chat-completion service is a function [openrouter] from the
    request the code builds to the outcome of the call: a transport error
    (an exception that the bare [except] swallows) or a response with a
    status code and content.  Content that the code cannot turn into JSON
    (no [choices], a non-JSON message) is [AIUnparsable].  Values of other
    types than the documented shape inside a returned object are outside the
    model: an object's keys are assumed to hold strings and lists of
    strings. *)

From stdpp Require Import base strings list.
From Stdlib Require Import ZArith.
From S2P Require Import Prelude Catalog.

Module Structure.

(** The request body of [POST /generate-roadmap] (lines 26-32). *)
Record EnhancedUserInput : Type := mk_input {
  goal : string;
  proficiency : string;
  time_commitment : string;
  learning_style : list string;
  specific_interests : option string;
  challenges : option string
}.

(** The structure dictionary; [None] is a missing key. *)
Record structure : Type := mk_structure {
  s_title : option string;
  s_overview : option string;
  s_weekly_themes : option (list string);
  s_weekly_focus : option (list string);
  s_weekly_objectives : option (list (list string))
}.

(** What the provider returns: a JSON object, or another JSON value. *)
Inductive raw_structure : Type :=
  | RSObject (s : structure)
  | RSNonObject.

(** [create_basic_structure] (lines 224-248). *)
Definition create_basic_structure (u : EnhancedUserInput) : structure :=
  let weeks := 4 in
  {| s_title := Some ("Learn " +:+ goal u +:+ " - " +:+ proficiency u +:+ " Roadmap");
     s_overview := Some ("A " +:+ py_str_nat weeks +:+ "-week journey to master "
                         +:+ goal u +:+ " through hands-on projects and real resources.");
     s_weekly_themes := Some ["Foundation & Setup"; "Core Concepts";
                              "Advanced Techniques"; "Real Projects"];
     s_weekly_focus := Some ["Learn basics and set up environment";
                             "Master fundamental concepts";
                             "Explore advanced features";
                             "Build complete applications"];
     s_weekly_objectives := Some [["Install tools"; "Learn syntax"; "First program"];
                                  ["Practice concepts"; "Debug issues"; "Small projects"];
                                  ["Advanced features"; "Optimization"; "Testing"];
                                  ["Portfolio project"; "Deployment"; "Documentation"]] |}.

(** ** The outbound request (lines 176-213) *)

Definition quoted (s : string) : string := dq +:+ s +:+ dq.

(** The triple-quoted [system_prompt] (lines 176-183), line by line. *)
Definition system_prompt : string :=
  py_join nl [
    "Return ONLY JSON. Structure:";
    "    {";
    "        " +:+ quoted "title" +:+ ": " +:+ quoted "Title" +:+ ",";
    "        " +:+ quoted "overview" +:+ ": " +:+ quoted "Overview" +:+ ",";
    "        " +:+ quoted "weekly_themes" +:+ ": [" +:+
      py_join ", " (quoted <$> ["Theme 1"; "Theme 2"; "Theme 3"; "Theme 4"]) +:+ "],";
    "        " +:+ quoted "weekly_focus" +:+ ": [" +:+
      py_join ", " (quoted <$> ["Focus 1"; "Focus 2"; "Focus 3"; "Focus 4"]) +:+ "],";
    "        " +:+ quoted "weekly_objectives" +:+ ": [" +:+
      py_join ", " ((fun p => "[" +:+ py_join ", " (quoted <$> p) +:+ "]") <$>
        [["Obj1"; "Obj2"]; ["Obj3"; "Obj4"]; ["Obj5"; "Obj6"]; ["Obj7"; "Obj8"]]) +:+ "]";
    "    }"].

(** The f-string [user_prompt] (lines 185-193): it asks for as many weeks
    as the request has learning styles. *)
Definition user_prompt (u : EnhancedUserInput) : string :=
  py_join nl [
    "";
    "    Create a " +:+ py_str_nat (length (learning_style u)) +:+ "-week learning roadmap for:";
    "    Goal: " +:+ goal u;
    "    Level: " +:+ proficiency u;
    "    Time: " +:+ time_commitment u;
    "    Styles: " +:+ py_join ", " (learning_style u);
    "    ";
    "    Return only the JSON structure above.";
    "    "].

(** The arguments of [requests.post] (lines 196-213); the temperature
    [0.3] is kept in tenths. *)
Record ai_request : Type := mk_request {
  req_url : string;
  req_authorization : string;
  req_content_type : string;
  req_model : string;
  req_messages : list (string * string);
  req_temperature_tenths : Z;
  req_max_tokens : Z;
  req_response_format : string;
  req_timeout : Z
}.

Definition build_request (api_key : string) (u : EnhancedUserInput) : ai_request :=
  {| req_url := "https://openrouter.ai/api/v1/chat/completions";
     req_authorization := "Bearer " +:+ api_key;
     req_content_type := "application/json";
     req_model := "meta-llama/llama-3.1-8b-instruct";
     req_messages := [("system", system_prompt); ("user", user_prompt u)];
     req_temperature_tenths := 3%Z;
     req_max_tokens := 1000%Z;
     req_response_format := "json_object";
     req_timeout := 30%Z |}.

(** What [json.loads(result["choices"][0]["message"]["content"])] yields. *)
Inductive ai_content : Type :=
  | AIUnparsable
  | AINonObject
  | AIObject (s : structure).

(** The outcome of the call. *)
Inductive ai_outcome : Type :=
  | AITransportError
  | AIResponse (status_code : Z) (content : ai_content).

Section Provider.
(** The external service, as seen by the code. *)
Variable openrouter : ai_request -> ai_outcome.

(** [get_ai_roadmap_structure] (lines 169-222); [api_key] is
    [os.getenv("OPENROUTER_API_KEY")]. *)
Definition get_ai_roadmap_structure (api_key : option string)
    (u : EnhancedUserInput) : raw_structure :=
  match api_key with
  | Some key =>
      if py_truthy_str api_key then
        match openrouter (build_request key u) with
        | AIResponse 200 (AIObject s) => RSObject s
        | AIResponse 200 AINonObject => RSNonObject
        | _ => RSObject (create_basic_structure u)
        end
      else RSObject (create_basic_structure u)
  | None => RSObject (create_basic_structure u)
  end.
End Provider.

End Structure.
