(* ===== verification/Plan.v ===== *)
(** * Plan: the roadmap dictionary the service returns and stores

    The dictionaries built by [enhance_with_real_content] (lines 280-313),
    [create_fallback_roadmap] (lines 335-434) and completed by
    [generate_roadmap] (lines 140-142), as records.  Keys that only one of
    the two builders sets, or that are added after assembly, are options:
    the fallback's timeline entries have no ["project"] key, and an
    assembled roadmap has no ["roadmap_id"], ["generated_at"] or ["topic"]
    until [generate_roadmap] adds them.  The order of a dictionary's keys is
    not modelled. *)

From stdpp Require Import base strings list.
From S2P Require Import Prelude Catalog.

(** One entry of ["weekly_plan"]. *)
Record week_plan : Type := mk_week {
  w_week : nat;
  w_theme : string;
  w_focus : string;
  w_objectives : list string;
  w_time_estimate : string;
  w_resources : list resource;
  w_project : project
}.

(** One entry of ["visual_timeline"] (lines 319-324 and 427-430). *)
Record timeline_entry : Type := mk_timeline {
  tl_week : nat;
  tl_theme : string;
  tl_milestones : list string;
  tl_project : option string
}.

(** One entry of ["milestone_projects"]: a catalog template, or one of the
    fallback's placeholders, which have a ["name"] and no ["title"]
    (lines 402-411). *)
Inductive milestone : Type :=
  | MsProject (p : project)
  | MsPlaceholder (name description : string) (skills : list string).

Record prerequisites : Type := mk_prereq {
  knowledge : list string;
  tools : list string
}.

(** The roadmap dictionary. *)
Record roadmap : Type := mk_roadmap {
  rm_roadmap_id : option string;
  rm_title : string;
  rm_overview : string;
  rm_prerequisites : prerequisites;
  rm_weekly_plan : list week_plan;
  rm_milestone_projects : list milestone;
  rm_success_tips : list string;
  rm_community_recommendations : list string;
  rm_visual_timeline : list timeline_entry;
  rm_generated_at : option string;
  rm_topic : option topic
}.

(** ** Shape invariant of a weekly plan

    The week numbers are [1, 2, ..., n]: contiguous and starting at 1. *)
Definition weeks_contiguous (ws : list week_plan) : Prop :=
  w_week <$> ws = seq 1 (length ws).

#[export] Instance weeks_contiguous_dec (ws : list week_plan) :
  Decision (weeks_contiguous ws).
Proof. unfold weeks_contiguous. apply _. Defined.

(** The shape every roadmap the service builds has: contiguous week numbers
    and at most four weeks. *)
Definition plan_wf (r : roadmap) : Prop :=
  weeks_contiguous (rm_weekly_plan r) /\ length (rm_weekly_plan r) <= 4.

#[export] Instance plan_wf_dec (r : roadmap) : Decision (plan_wf r).
Proof. unfold plan_wf. apply _. Defined.
