(* ===== verification/Assembler.v ===== *)
(** * Plan assembler: [enhance_with_real_content] and
      [generate_timeline_data] (src/main.py lines 250-325)

    The assembler is stated over any pair of catalog dictionaries (the
    Section's variables), and instantiated with [REAL_RESOURCES] and
    [REAL_PROJECTS] by the handler.  Each week [i] (0-based) of the first
    [min 4 (len themes)] weeks selects at most two resources by a per-phase
    type policy, one project at index [min i (len projects - 1)] (or a
    placeholder when the project list is empty), and a time estimate
    ["<10+5i>-<15+5i> hours"].  Every subscript of the structure is a
    possible [KeyError] or [IndexError], propagated in the order of the
    loop. *)

From stdpp Require Import base gmap strings list.
From Stdlib Require Import Ascii.
From S2P Require Import Prelude Catalog Structure Plan.

Module Assembler.
Import Structure.

(** The resource types week [i] selects (lines 264-269). *)
Definition policy (i : nat) : list rtype :=
  match i with
  | 0 => [Video; Course]
  | 1 => [Article; Course]
  | _ => [Project; Video]
  end.

(** [[r for r in topic_resources if r["type"] in policy][:2]]. *)
Definition select_resources (rs : list resource) (i : nat) : list resource :=
  take 2 (filter (fun r => r_type r ∈ policy i) rs).

(** The project built when the topic has no templates (lines 273-278). *)
Definition placeholder_project (week_num : nat) : project :=
  mk_project ("Week " +:+ py_str_nat week_num +:+ " Project")
    "Hands-on project to apply what you learned" "https://github.com/"
    ["Problem Solving"; "Coding"; "Debugging"] None.

(** [topic_projects[min(i, len - 1)] if topic_projects else placeholder]
    (lines 272-278): the condition is evaluated first, so the index is
    only computed on a non-empty list. *)
Definition week_project (ps : list project) (i : nat) : result project :=
  match ps with
  | [] => Ok (placeholder_project (S i))
  | _ => py_index ps (Nat.min i (length ps - 1))
  end.

(** [f"{10 + i*5}-{15 + i*5} hours"] (line 285). *)
Definition time_estimate (i : nat) : string :=
  py_str_nat (10 + i * 5) +:+ "-" +:+ py_str_nat (15 + i * 5) +:+ " hours".

(** The body of the loop for week [i] (lines 260-288). *)
Definition build_week (s : structure) (themes : list string)
    (rs : list resource) (ps : list project) (i : nat) : result week_plan :=
  let week_num := S i in
  let week_resources := select_resources rs i in
  let* proj := week_project ps i in
  let* theme := py_index themes i in
  let* focus_l := getkey "weekly_focus" (s_weekly_focus s) in
  let* focus := py_index focus_l i in
  let* objs_l := getkey "weekly_objectives" (s_weekly_objectives s) in
  let* objs := py_index objs_l i in
  Ok (mk_week week_num theme focus objs (time_estimate i) week_resources proj).

(** The loop over [range(i, i + n)], appending each week in order. *)
Fixpoint build_weeks (s : structure) (themes : list string)
    (rs : list resource) (ps : list project) (i n : nat) : result (list week_plan) :=
  match n with
  | 0 => Ok []
  | S n' =>
      let* w := build_week s themes rs ps i in
      let* ws := build_weeks s themes rs ps (S i) n' in
      Ok (w :: ws)
  end.

(** [generate_timeline_data] (lines 315-325). *)
Definition generate_timeline_data (ws : list week_plan) : list timeline_entry :=
  (fun w => mk_timeline (w_week w) (w_theme w) (w_objectives w)
              (Some (p_title (w_project w)))) <$> ws.

Definition enhanced_prerequisites : prerequisites :=
  mk_prereq ["Basic computer skills"; "Internet access"] ["Computer"; "Code editor"; "Git"].

Definition enhanced_success_tips : list string :=
  ["Code every day, even for 30 minutes"; "Build projects that interest you";
   "Join communities for support"; "Document your learning journey";
   "Teach others what you learn"].

Definition enhanced_community : list string :=
  ["Discord: Learn Together"; "Reddit: r/learnprogramming"; "GitHub: Open Source";
   "Dev.to Community"].

Section WithCatalog.
Variable resources_db : gmap string (list resource).
Variable projects_db : gmap string (list project).

(** [CATALOG.get(topic, CATALOG["python"])]: the default is evaluated
    first, so a catalog without a ["python"] key raises. *)
Definition topic_resources (t : topic) : result (list resource) :=
  let* dflt := py_getitem resources_db "python" in
  Ok (py_get resources_db (topic_key t) dflt).

Definition topic_projects (t : topic) : result (list project) :=
  let* dflt := py_getitem projects_db "python" in
  Ok (py_get projects_db (topic_key t) dflt).

(** [enhance_with_real_content] (lines 250-313).  The dictionary literal
    of the result evaluates ["title"] before ["overview"]. *)
Definition enhance_with_real_content (raw : raw_structure) (t : topic)
    (u : EnhancedUserInput) : result roadmap :=
  let* rs := topic_resources t in
  let* ps := topic_projects t in
  match raw with
  | RSNonObject => Raise TypeError
  | RSObject s =>
      let* themes := getkey "weekly_themes" (s_weekly_themes s) in
      let* weekly_plan := build_weeks s themes rs ps 0 (Nat.min 4 (length themes)) in
      let* title := getkey "title" (s_title s) in
      let* overview := getkey "overview" (s_overview s) in
      Ok {| rm_roadmap_id := None;
            rm_title := title;
            rm_overview := overview;
            rm_prerequisites := enhanced_prerequisites;
            rm_weekly_plan := weekly_plan;
            rm_milestone_projects := MsProject <$> take 3 ps;
            rm_success_tips := enhanced_success_tips;
            rm_community_recommendations := enhanced_community;
            rm_visual_timeline := generate_timeline_data weekly_plan;
            rm_generated_at := None;
            rm_topic := None |}
  end.
End WithCatalog.

(** ** Lemmas on one week and on the loop *)

Lemma week_project_total (ps : list project) (i : nat) :
  exists p, week_project ps i = Ok p.
Proof.
  destruct ps as [|p0 ps']; cbn [week_project]; [by eexists |].
  destruct (lookup_lt_is_Some_2 (p0 :: ps') (Nat.min i (length (p0 :: ps') - 1)))
    as [p Hp]; [cbn; lia |].
  exists p. by apply py_index_Ok.
Qed.

(** A non-empty project list yields the template at [min i (len - 1)]. *)
Lemma week_project_index (ps : list project) (i : nat) :
  ps <> [] -> week_project ps i = py_index ps (Nat.min i (length ps - 1)).
Proof. by destruct ps. Qed.

Lemma build_week_spec s themes rs ps i w :
  build_week s themes rs ps i = Ok w ->
  w_week w = S i /\ themes !! i = Some (w_theme w) /\
  w_resources w = select_resources rs i /\ w_time_estimate w = time_estimate i /\
  week_project ps i = Ok (w_project w) /\
  (exists f, s_weekly_focus s = Some f /\ f !! i = Some (w_focus w)) /\
  (exists o, s_weekly_objectives s = Some o /\ o !! i = Some (w_objectives w)).
Proof.
  unfold build_week. intros H. destruct_binds; try discriminate.
  py_hyps. cbn. split_and!; eauto.
Qed.

(** Week [i] is built exactly when the theme, focus and objectives lists
    all reach index [i]. *)
Lemma build_week_ok_iff s themes rs ps i :
  is_ok (build_week s themes rs ps i) = true <->
  i < length themes /\
  (exists f, s_weekly_focus s = Some f /\ i < length f) /\
  (exists o, s_weekly_objectives s = Some o /\ i < length o).
Proof.
  split.
  - destruct (build_week s themes rs ps i) as [w|] eqn:E; [intros _ | done].
    apply build_week_spec in E as (_ & Ht & _ & _ & _ & (f & Hf & Hfi) & (o & Ho & Hoi)).
    split_and!; [| exists f | exists o]; split_and?; eauto using lookup_lt_Some.
  - intros (Ht & (f & Hf & Hfi) & (o & Ho & Hoi)).
    destruct (week_project_total ps i) as [p Hp].
    destruct (lookup_lt_is_Some_2 _ _ Ht) as [th Hth].
    destruct (lookup_lt_is_Some_2 _ _ Hfi) as [fv Hfv].
    destruct (lookup_lt_is_Some_2 _ _ Hoi) as [ov Hov].
    unfold build_week. rewrite Hp, Hf, Ho. cbn. unfold py_index.
    by rewrite Hth, Hfv, Hov.
Qed.

Lemma build_weeks_spec s themes rs ps i n ws :
  build_weeks s themes rs ps i n = Ok ws ->
  length ws = n /\
  forall j w, ws !! j = Some w -> build_week s themes rs ps (i + j) = Ok w.
Proof.
  revert i ws. induction n as [|n IH]; intros i ws H; cbn in H.
  - inv_clear H. split; [done | by intros ? ? ?].
  - destruct_binds; try discriminate. inv_clear H.
    destruct (IH _ _ E0) as [Hl Hj]. split; [cbn; lia |].
    intros [|j] w' Hw; cbn in Hw; [inv_clear Hw; by rewrite Nat.add_0_r |].
    rewrite Nat.add_succ_r, <- Nat.add_succ_l. by apply Hj.
Qed.

Lemma build_weeks_ok_iff s themes rs ps i n :
  is_ok (build_weeks s themes rs ps i n) = true <->
  forall j, j < n -> is_ok (build_week s themes rs ps (i + j)) = true.
Proof.
  revert i. induction n as [|n IH]; intros i; cbn [build_weeks].
  - split; [intros _ j Hj; lia | done].
  - destruct (build_week s themes rs ps i) eqn:E1; cbn [result_bind].
    + specialize (IH (S i)).
      destruct (build_weeks s themes rs ps (S i) n); cbn [result_bind].
      * split; [intros _ [|j] Hj | done]; [by rewrite Nat.add_0_r, E1 |].
        rewrite Nat.add_succ_r, <- Nat.add_succ_l. apply IH; [done | lia].
      * split; [done | intros H]. apply IH. intros j Hj.
        rewrite Nat.add_succ_l, <- Nat.add_succ_r. apply H. lia.
    + split; [done | intros H]. specialize (H 0 ltac:(lia)).
      by rewrite Nat.add_0_r, E1 in H.
Qed.

Lemma build_weeks_weeks s themes rs ps i n ws :
  build_weeks s themes rs ps i n = Ok ws -> w_week <$> ws = seq (S i) n.
Proof.
  revert i ws. induction n as [|n IH]; intros i ws H; cbn in H.
  - by py_hyps.
  - destruct_binds; try discriminate. py_hyps.
    apply build_week_spec in E as [Hw _]. cbn. by rewrite Hw, (IH _ _ E0).
Qed.

(** The loop from week 0 succeeds exactly when no week is requested or
    both the focus and objectives lists reach the last requested week. *)
Lemma build_weeks_from0_ok s themes rs ps :
  let n := Nat.min 4 (length themes) in
  is_ok (build_weeks s themes rs ps 0 n) = true <->
  n = 0 \/
  ((exists f, s_weekly_focus s = Some f /\ n <= length f) /\
   (exists o, s_weekly_objectives s = Some o /\ n <= length o)).
Proof.
  cbn zeta. rewrite build_weeks_ok_iff. setoid_rewrite build_week_ok_iff.
  split.
  - intros H. destruct (Nat.min 4 (length themes)) as [|n] eqn:En; [by left | right].
    destruct (H n ltac:(lia)) as (_ & (f & Hf & Hfl) & (o & Ho & Hol)).
    split; [exists f | exists o]; split; [done | lia | done | lia].
  - intros [Hn | ((f & Hf & Hfl) & (o & Ho & Hol))] j Hj; [lia |].
    split_and!; [lia | exists f | exists o]; split; [done | lia | done | lia].
Qed.

(** A structure dictionary the assembler accepts: the themes, title and
    overview keys are present, and when at least one week is built the
    focus and objectives lists reach the last one. *)
Definition assemblable (s : structure) : Prop :=
  match s_weekly_themes s with
  | None => False
  | Some themes =>
      let n := Nat.min 4 (length themes) in
      (n = 0 \/
       ((exists f, s_weekly_focus s = Some f /\ n <= length f) /\
        (exists o, s_weekly_objectives s = Some o /\ n <= length o))) /\
      is_Some (s_title s) /\ is_Some (s_overview s)
  end.

(** Both topic lookups succeed only when both catalogs have a ["python"] key. *)
Lemma topic_lists_Ok rdb pdb t rs ps :
  topic_resources rdb t = Ok rs -> topic_projects pdb t = Ok ps ->
  is_Some (rdb !! "python") /\ is_Some (pdb !! "python").
Proof.
  unfold topic_resources, topic_projects, py_getitem.
  destruct (rdb !! "python"), (pdb !! "python"); cbn; intros; by try discriminate.
Qed.

(** The selection keeps, in catalog order, the first two resources of the
    week's types: a prefix of the filtered catalog, of length
    [min 2 (number of matches)]. *)
Lemma select_resources_spec (rs : list resource) (i : nat) :
  let matches := filter (fun r => r_type r ∈ policy i) rs in
  Forall (fun r => r_type r ∈ policy i) (select_resources rs i) /\
  select_resources rs i `prefix_of` matches /\
  select_resources rs i `sublist_of` rs /\
  length (select_resources rs i) = Nat.min 2 (length matches).
Proof.
  cbn zeta. unfold select_resources. split_and!.
  - apply Forall_take, Forall_forall. intros r Hr%list_elem_of_filter. apply Hr.
  - apply prefix_take.
  - etrans; [apply sublist_take | apply sublist_filter].
  - by rewrite length_take.
Qed.

(** The time estimate parsed back: the two bounds of the range. *)
Definition parse_time_estimate (s : string) : option (nat * nat) :=
  match split_at "-"%char s with
  | Some (a, rest) =>
      match split_at " "%char rest with
      | Some (b, tl) =>
          if String.eqb tl "hours" then
            match py_int_of_string a, py_int_of_string b with
            | Some lo, Some hi => Some (lo, hi)
            | _, _ => None
            end
          else None
      | None => None
      end
  | None => None
  end.

Lemma time_estimate_roundtrip (i : nat) :
  parse_time_estimate (time_estimate i) = Some (10 + i * 5, 15 + i * 5).
Proof.
  unfold time_estimate, parse_time_estimate.
  rewrite string_app_cons, string_app_nil, split_at_py_str by reflexivity.
  rewrite split_at_py_str by reflexivity. cbn -[py_int_of_string py_str_nat].
  by rewrite !py_int_of_py_str.
Qed.

Section Theorems.
Context (rdb : gmap string (list resource)) (pdb : gmap string (list project)).

(** Unfold a successful assembly into the results of its parts. *)
Lemma enhance_Ok_inv raw t u r :
  enhance_with_real_content rdb pdb raw t u = Ok r ->
  exists s themes rs ps,
    raw = RSObject s /\ s_weekly_themes s = Some themes /\
    topic_resources rdb t = Ok rs /\ topic_projects pdb t = Ok ps /\
    build_weeks s themes rs ps 0 (Nat.min 4 (length themes)) = Ok (rm_weekly_plan r) /\
    rm_milestone_projects r = MsProject <$> take 3 ps /\
    rm_visual_timeline r = generate_timeline_data (rm_weekly_plan r) /\
    s_title s = Some (rm_title r) /\ s_overview s = Some (rm_overview r).
Proof.
  unfold enhance_with_real_content. intros H.
  destruct (topic_resources rdb t) as [rs|] eqn:Er; [cbn in H | discriminate].
  destruct (topic_projects pdb t) as [ps|] eqn:Ep; [cbn in H | discriminate].
  destruct raw as [s|]; [| discriminate].
  destruct_binds; try discriminate. py_hyps. cbn.
  exists s, a, rs, ps. naive_solver.
Qed.

Lemma enhance_week_inv raw t u r j w :
  enhance_with_real_content rdb pdb raw t u = Ok r ->
  rm_weekly_plan r !! j = Some w ->
  exists s themes rs ps, raw = RSObject s /\ s_weekly_themes s = Some themes /\
    topic_resources rdb t = Ok rs /\ topic_projects pdb t = Ok ps /\
    build_week s themes rs ps j = Ok w.
Proof.
  intros H Hw. destruct (enhance_Ok_inv _ _ _ _ H)
    as (s & themes & rs & ps & -> & Ht & Hr & Hp & Hb & _).
  destruct (build_weeks_spec _ _ _ _ _ _ _ Hb) as [_ Hj].
  exists s, themes, rs, ps. split_and!; try done. by apply Hj.
Qed.

(** When assembly succeeds, as an exact condition on the catalogs and the
    structure. *)
Lemma enhance_is_ok_char raw t u :
  is_ok (enhance_with_real_content rdb pdb raw t u) = true <->
  is_Some (rdb !! "python") /\ is_Some (pdb !! "python") /\
  exists s, raw = RSObject s /\ assemblable s.
Proof.
  unfold enhance_with_real_content, topic_resources, topic_projects, py_getitem.
  destruct (rdb !! "python"); cbn [result_bind]; [| split; [done | by intros ([? ?] & _)]].
  destruct (pdb !! "python"); cbn [result_bind]; [| split; [done | by intros (_ & [? ?] & _)]].
  destruct raw as [s|]; cbn [result_bind]; [| split; [done | by intros (_ & _ & ? & ? & _)]].
  transitivity (assemblable s);
    [| split; [eauto 10 | by intros (_ & _ & ? & [= <-] & ?)]].
  unfold assemblable. destruct (s_weekly_themes s) as [themes|]; cbn [getkey result_bind];
    [| split; [done | intros []]].
  pose proof (build_weeks_from0_ok s themes (py_get rdb (topic_key t) l)
                (py_get pdb (topic_key t) l0)) as B. cbv zeta in B.
  destruct (build_weeks _ _ _ _ 0 _); cbn [result_bind is_ok] in *;
    destruct (s_title s), (s_overview s); cbn [getkey result_bind is_ok];
    rewrite <- B; naive_solver.
Qed.

(** C3: assembly raises exactly when a catalog lacks the ["python"]
    default, the structure is not a JSON object, or the structure misses
    a key or a list entry that the loop subscripts. *)
Theorem enhance_ok_iff raw t u :
  is_ok (enhance_with_real_content rdb pdb raw t u) = true <->
  is_Some (rdb !! "python") /\ is_Some (pdb !! "python") /\
  exists s, raw = RSObject s /\ assemblable s.
Proof. exact (enhance_is_ok_char raw t u). Qed.

(** An assembled plan is well formed: weeks numbered 1..n, n <= 4. *)
Lemma enhance_plan_wf raw t u r :
  enhance_with_real_content rdb pdb raw t u = Ok r -> plan_wf r.
Proof.
  intros H. destruct (enhance_Ok_inv _ _ _ _ H)
    as (s & themes & rs & ps & _ & _ & _ & _ & Hb & _).
  destruct (build_weeks_spec _ _ _ _ _ _ _ Hb) as [Hl _]. split.
  - unfold weeks_contiguous. rewrite Hl. exact (build_weeks_weeks _ _ _ _ _ _ _ Hb).
  - lia.
Qed.

(** C2: every assembled plan has contiguous week numbers from 1 and
    [min 4 (len themes)] weeks, so at most four. *)
Theorem enhance_shape raw t u r :
  enhance_with_real_content rdb pdb raw t u = Ok r ->
  plan_wf r /\
  exists s themes, raw = RSObject s /\ s_weekly_themes s = Some themes /\
    length (rm_weekly_plan r) = Nat.min 4 (length themes).
Proof.
  intros H. split; [exact (enhance_plan_wf _ _ _ _ H) |].
  destruct (enhance_Ok_inv _ _ _ _ H)
    as (s & themes & rs & ps & -> & Ht & _ & _ & Hb & _).
  exists s, themes. split_and!; try done.
  exact (proj1 (build_weeks_spec _ _ _ _ _ _ _ Hb)).
Qed.


(** C9: week [j] of an assembled plan takes, in catalog order, the first
    two resources of the topic's catalog whose type is in the week's
    policy ({Video, Course} in week 1, {Article, Course} in week 2,
    {Project, Video} after), all of them when fewer match. *)
Theorem enhance_resources raw t u r j w rs :
  enhance_with_real_content rdb pdb raw t u = Ok r ->
  rm_weekly_plan r !! j = Some w ->
  topic_resources rdb t = Ok rs ->
  let matches := filter (fun x => r_type x ∈ policy j) rs in
  Forall (fun x => r_type x ∈ policy j) (w_resources w) /\
  w_resources w `prefix_of` matches /\
  length (w_resources w) = Nat.min 2 (length matches).
Proof.
  intros H Hw Hrs.
  destruct (enhance_week_inv _ _ _ _ _ _ H Hw) as (s & themes & rs' & ps & _ & _ & Hrs' & _ & Hb).
  rewrite Hrs in Hrs'. injection Hrs' as <-.
  apply build_week_spec in Hb as (_ & _ & -> & _).
  pose proof (select_resources_spec rs j). naive_solver.
Qed.

(** The project of week [j] of an assembled plan. *)
Lemma enhance_project_week raw t u r j w ps :
  enhance_with_real_content rdb pdb raw t u = Ok r ->
  rm_weekly_plan r !! j = Some w ->
  topic_projects pdb t = Ok ps ->
  (ps = [] /\ w_project w = placeholder_project (S j)) \/
  (ps <> [] /\ ps !! Nat.min j (length ps - 1) = Some (w_project w)).
Proof.
  intros H Hw Hps.
  destruct (enhance_week_inv _ _ _ _ _ _ H Hw) as (s & themes & rs & ps' & _ & _ & _ & Hps' & Hb).
  rewrite Hps in Hps'. injection Hps' as <-.
  apply build_week_spec in Hb as (_ & _ & _ & _ & Hp & _).
  destruct ps as [|p0 ps']; [left; by injection Hp | right].
  split; [done |]. by apply py_index_Ok.
Qed.

(** C10: every assemblable structure is assembled, whatever the number of
    templates of the topic, and week [j] gets the template at index
    [min j (len - 1)], so the last template is repeated for the later
    weeks, or the placeholder project when the topic has no templates. *)
Theorem enhance_project s t u ps :
  is_Some (rdb !! "python") -> is_Some (pdb !! "python") -> assemblable s ->
  topic_projects pdb t = Ok ps ->
  exists r, enhance_with_real_content rdb pdb (RSObject s) t u = Ok r /\
    forall j w, rm_weekly_plan r !! j = Some w ->
      (ps = [] /\ w_project w = placeholder_project (S j)) \/
      (ps <> [] /\ ps !! Nat.min j (length ps - 1) = Some (w_project w)).
Proof.
  intros Hr Hp Hs Hps.
  destruct (enhance_with_real_content rdb pdb (RSObject s) t u) as [r|e] eqn:He.
  - exists r. split; [done |]. intros j w Hw. exact (enhance_project_week _ _ _ _ _ _ _ He Hw Hps).
  - exfalso. assert (is_ok (enhance_with_real_content rdb pdb (RSObject s) t u) = true) as Hok
      by (apply enhance_is_ok_char; eauto).
    by rewrite He in Hok.
Qed.

(** C11: the time estimate of week [n] (1-based) reads back as the range
    [5 + 5n] to [10 + 5n] hours, so week 1 is "10-15 hours", and since a
    plan has at most four weeks the upper bound never exceeds 30. *)
Theorem enhance_time_estimate raw t u r j w :
  enhance_with_real_content rdb pdb raw t u = Ok r ->
  rm_weekly_plan r !! j = Some w ->
  parse_time_estimate (w_time_estimate w) = Some (5 + 5 * w_week w, 10 + 5 * w_week w) /\
  10 + 5 * w_week w <= 30.
Proof.
  intros H Hw.
  destruct (enhance_plan_wf _ _ _ _ H) as [_ Hlen].
  pose proof (lookup_lt_Some _ _ _ Hw) as Hj.
  destruct (enhance_week_inv _ _ _ _ _ _ H Hw) as (s & themes & rs & ps & _ & _ & _ & _ & Hb).
  apply build_week_spec in Hb as (-> & _ & _ & -> & _).
  rewrite time_estimate_roundtrip. split; [do 2 f_equal; lia | lia].
Qed.
End Theorems.

(** ** Witnesses, on the spec's example request *)

Definition example_input : EnhancedUserInput :=
  mk_input "Learn Python basics" "beginner" "5 hrs/week" ["visual"; "hands-on"] None None.

Definition example_raw : raw_structure := RSObject (create_basic_structure example_input).

Lemma enhance_shape_witness :
  exists r, enhance_with_real_content REAL_RESOURCES REAL_PROJECTS example_raw TPython
              example_input = Ok r /\
    (plan_wf r /\ exists s themes, example_raw = RSObject s /\
       s_weekly_themes s = Some themes /\
       length (rm_weekly_plan r) = Nat.min 4 (length themes)).
Proof.
  eexists. split; [reflexivity |].
  eapply (enhance_shape REAL_RESOURCES REAL_PROJECTS example_raw TPython example_input).
  reflexivity.
Defined.

(** Week 2 (index 1) of the python plan: the Course, then the Article. *)
Lemma enhance_resources_witness :
  exists r w rs,
    enhance_with_real_content REAL_RESOURCES REAL_PROJECTS example_raw TPython
      example_input = Ok r /\
    rm_weekly_plan r !! 1 = Some w /\ topic_resources REAL_RESOURCES TPython = Ok rs /\
    (let matches := filter (fun x => r_type x ∈ policy 1) rs in
     Forall (fun x => r_type x ∈ policy 1) (w_resources w) /\
     w_resources w `prefix_of` matches /\
     length (w_resources w) = Nat.min 2 (length matches)).
Proof.
  do 3 eexists. split; [reflexivity |]. split; [reflexivity |]. split; [reflexivity |].
  eapply (enhance_resources REAL_RESOURCES REAL_PROJECTS example_raw TPython example_input);
    reflexivity.
Defined.

(** Week 4 (index 3) repeats the second and last python template. *)
(** The python plan has four weeks and two templates: weeks 3 and 4
    repeat the second one. *)
Lemma enhance_project_witness :
  exists ps,
    is_Some (REAL_RESOURCES !! "python") /\ is_Some (REAL_PROJECTS !! "python") /\
    assemblable (create_basic_structure example_input) /\
    topic_projects REAL_PROJECTS TPython = Ok ps /\
    (exists r, enhance_with_real_content REAL_RESOURCES REAL_PROJECTS
                 (RSObject (create_basic_structure example_input)) TPython example_input = Ok r /\
       forall j w, rm_weekly_plan r !! j = Some w ->
         (ps = [] /\ w_project w = placeholder_project (S j)) \/
         (ps <> [] /\ ps !! Nat.min j (length ps - 1) = Some (w_project w))).
Proof.
  assert (assemblable (create_basic_structure example_input)) as Hs.
  { unfold assemblable. cbn. split_and!; [right; split | eexists; reflexivity ..];
      (eexists; split; [reflexivity | cbn; lia]). }
  eexists. split_and!; [eexists; reflexivity | eexists; reflexivity | exact Hs | reflexivity |].
  apply (enhance_project REAL_RESOURCES REAL_PROJECTS); [eexists; reflexivity ..| exact Hs | reflexivity].
Defined.

Lemma enhance_time_estimate_witness :
  exists r w,
    enhance_with_real_content REAL_RESOURCES REAL_PROJECTS example_raw TPython
      example_input = Ok r /\
    rm_weekly_plan r !! 0 = Some w /\
    (parse_time_estimate (w_time_estimate w) = Some (5 + 5 * w_week w, 10 + 5 * w_week w) /\
     10 + 5 * w_week w <= 30).
Proof.
  do 2 eexists. split; [reflexivity |]. split; [reflexivity |].
  eapply (enhance_time_estimate REAL_RESOURCES REAL_PROJECTS example_raw TPython example_input _ 0);
    reflexivity.
Defined.

End Assembler.
