(* ===== verification/Fallback.v ===== *)
(** * Fallback plan builder: [create_fallback_roadmap] (src/main.py lines 327-434)

    The plan [generate_roadmap] returns when its [try] block raises.  It is
    a second, hard-coded four-week plan: it uses the same catalog lookups as
    the assembler but slices the resource list by position ([[:2]],
    [[2:4]]) instead of the type policy, and its visual timeline is a
    literal that is not derived from its weekly plan.  The fresh
    [str(uuid.uuid4())[:8]] and [datetime.now().isoformat()] are the
    arguments [rid] and [now]. *)

From stdpp Require Import base gmap strings list.
From S2P Require Import Prelude Catalog Structure Plan Assembler.

Module Fallback.
Import Structure Assembler.

Definition placeholder (title description : string) (skills : list string) : project :=
  mk_project title description "https://github.com/" skills None.

Definition fallback_week1 (rs : list resource) (ps : list project) : week_plan :=
  mk_week 1 "Getting Started & Fundamentals"
    "Learn the basics and set up your development environment"
    ["Install necessary tools"; "Learn basic syntax"; "Complete first project"]
    "10-15 hours" (take 2 rs)
    (match ps with
     | p :: _ => p
     | [] => placeholder "Hello World Project" "Create your first working application"
               ["Setup"; "Basic Syntax"; "Debugging"]
     end).

(** [topic_projects[1] if len(topic_projects) > 1 else ...]. *)
Definition fallback_week2 (rs : list resource) (ps : list project) : week_plan :=
  mk_week 2 "Core Concepts & Practice"
    "Master fundamental concepts through hands-on exercises"
    ["Practice key concepts"; "Build small applications"; "Learn debugging"]
    "15-20 hours" (take 2 (drop 2 rs))
    (match ps with
     | _ :: p :: _ => p
     | _ => placeholder "Practical Application"
              "Build a functional application solving a real problem"
              ["Problem Solving"; "Implementation"; "Testing"]
     end).

Definition fallback_week3 (rs : list resource) : week_plan :=
  mk_week 3 "Advanced Techniques" "Learn advanced features and optimization techniques"
    ["Implement advanced features"; "Optimize performance"; "Learn testing"]
    "20-25 hours" (take 2 (filter (fun r => r_type r = Project) rs))
    (placeholder "Advanced Project" "Create an optimized application with advanced features"
       ["Advanced Features"; "Optimization"; "Deployment"]).

Definition fallback_week4 : week_plan :=
  mk_week 4 "Real-World Projects" "Build portfolio-worthy projects and deploy them"
    ["Complete major project"; "Deploy application"; "Document code"]
    "25-30 hours"
    [mk_resource Project "Portfolio Projects" "https://github.com/topics/portfolio"
       (Some "GitHub") None None None]
    (placeholder "Portfolio Showcase" "Build a complete application for your portfolio"
       ["Full-stack Development"; "Deployment"; "Documentation"]).

Definition fallback_milestones (ps : list project) : list milestone :=
  match ps with
  | [] => [MsPlaceholder "Portfolio Project" "Showcase your skills with a complete application"
             ["Frontend"; "Backend"; "Deployment"];
           MsPlaceholder "Open Source Contribution" "Contribute to a real open-source project"
             ["Git"; "Collaboration"; "Code Review"]]
  | _ => MsProject <$> take 3 ps
  end.

Definition fallback_timeline : list timeline_entry :=
  [mk_timeline 1 "Fundamentals" ["Setup"; "Basics"; "First Project"] None;
   mk_timeline 2 "Core Skills" ["Practice"; "Small Apps"; "Debugging"] None;
   mk_timeline 3 "Advanced" ["Advanced Features"; "Optimization"; "Testing"] None;
   mk_timeline 4 "Real World" ["Portfolio Project"; "Deployment"; "Documentation"] None].

Section WithCatalog.
Variable resources_db : gmap string (list resource).
Variable projects_db : gmap string (list project).

Definition create_fallback_roadmap (u : EnhancedUserInput) (t : topic)
    (rid now : string) : result roadmap :=
  let* rs := topic_resources resources_db t in
  let* ps := topic_projects projects_db t in
  Ok {| rm_roadmap_id := Some rid;
        rm_title := "Hands-On " +:+ goal u +:+ " Learning Roadmap";
        rm_overview := "A practical " +:+ time_commitment u +:+ " journey to master "
                       +:+ goal u +:+ " through real projects and working resources.";
        rm_prerequisites :=
          mk_prereq ["Basic computer literacy"; "Problem-solving mindset"]
                    ["Computer with internet"; "Modern browser"; "Code editor"];
        rm_weekly_plan := [fallback_week1 rs ps; fallback_week2 rs ps;
                           fallback_week3 rs; fallback_week4];
        rm_milestone_projects := fallback_milestones ps;
        rm_success_tips :=
          ["Code consistently - small daily progress beats occasional marathons";
           "Build projects you're passionate about";
           "Join communities and ask for help";
           "Document your journey and share learnings";
           "Don't fear mistakes - they're learning opportunities"];
        rm_community_recommendations :=
          ["Discord Programming Communities"; "Reddit Learning Subreddits";
           "GitHub Open Source"; "Stack Overflow for Questions"];
        rm_visual_timeline := fallback_timeline;
        rm_generated_at := Some now;
        rm_topic := Some t |}.
End WithCatalog.

(** ** Properties of the fallback plan *)

(** C22: for every request and topic, the fallback plan's second week
    holds a resource outside the week-2 type policy ({Article, Course})
    that the assembler applies: the fallback slices the catalog by position
    and picks up its Project resource. *)
Theorem fallback_week2_outside_policy u t rid now :
  exists r w x, create_fallback_roadmap REAL_RESOURCES REAL_PROJECTS u t rid now = Ok r /\
    rm_weekly_plan r !! 1 = Some w /\ x ∈ w_resources w /\ r_type x ∉ policy 1.
Proof.
  destruct t; do 3 eexists; (split; [reflexivity |]); (split; [reflexivity |]);
    (split; [apply list_elem_of_further, list_elem_of_here |]);
    cbn; intros Hx; repeat (apply elem_of_cons in Hx as [Hx|Hx]; [discriminate |]);
    by apply elem_of_nil in Hx.
Qed.

(** C23: for every request and topic, the fallback plan's visual timeline
    is not the projection [generate_timeline_data] of its own weekly plan,
    which the assembled plans always carry: its themes differ and it has no
    project titles. *)
Theorem fallback_timeline_not_derived u t rid now :
  exists r, create_fallback_roadmap REAL_RESOURCES REAL_PROJECTS u t rid now = Ok r /\
    rm_visual_timeline r <> generate_timeline_data (rm_weekly_plan r).
Proof. destruct t; eexists; (split; [reflexivity |]); cbn; intros Heq; discriminate Heq. Qed.

End Fallback.
