(* ===== verification/Progress.v ===== *)
(** * Progress tracker: the progress record and its update
      (src/main.py lines 34-38, 147, 442-466)

    A progress record is the dictionary stored under ["progress"]: the
    list ["completed_weeks"] (appended only when absent), the list
    ["completed_projects"] (appended on every [project_done], duplicates
    kept) and the list ["notes"], a key that only exists after the first
    note; the keys reached through [setdefault] are options.  Week numbers
    are Python [int]s, so [Z], with no range check.

    The percentage [round(completed / total * 100, 1)] is kept in tenths
    of a percent: [round(1000 * completed / total)] with Python's
    round-half-to-even on the exact quotient.  The code computes it on
    floats; for the totals of stored plans (at most 4, [Registry]) the
    exact quotient is never a tie ([percentage_no_tie]) and lies at least a
    sixth of a tenth away from one, far beyond the float error for any
    realistic count, so the exact model and the float computation agree.

    The abstract specification of a record is the set of completed weeks
    (a stdpp [gset]); [record_progress_refines] is the simulation. *)

From stdpp Require Import base gmap strings list.
From Stdlib Require Import ZArith.
From S2P Require Import Prelude.

Module Progress.

(** The request body of [POST /update-progress] (lines 34-38). *)
Record ProgressUpdate : Type := mk_update {
  roadmap_id : string;
  week_completed : Z;
  project_done : bool;
  upd_notes : option string
}.

(** An entry of ["notes"] (lines 451-455). *)
Record note : Type := mk_note {
  n_week : Z;
  n_note : string;
  n_timestamp : string
}.

Record progress : Type := mk_progress {
  completed_weeks : list Z;
  completed_projects : option (list Z);
  notes : option (list note)
}.

(** The record stored by [generate_roadmap] (line 147). *)
Definition init_progress : progress := mk_progress [] (Some []) None.

(** [d.setdefault(k, []).append(x)] on a key held as an option. *)
Definition setdefault_append {A} (o : option (list A)) (x : A) : option (list A) :=
  Some (default [] o ++ [x]).

(** The three in-place updates of [update_progress] (lines 444-455);
    [now] is [datetime.now().isoformat()]. *)
Definition record_progress (p : progress) (upd : ProgressUpdate) (now : string) : progress :=
  let wk := week_completed upd in
  let cw := append_if_absent wk (completed_weeks p) in
  let cp := if project_done upd
            then setdefault_append (completed_projects p) wk
            else completed_projects p in
  let ns := match upd_notes upd with
            | Some text =>
                if py_truthy_str (upd_notes upd)
                then setdefault_append (notes p) (mk_note wk text now)
                else notes p
            | None => notes p
            end in
  mk_progress cw cp ns.

(** [round((completed / total * 100) if total > 0 else 0, 1)], in tenths
    (lines 458-460, 464). *)
Definition progress_percentage (completed total : nat) : Z :=
  if (0 <? total)%nat
  then py_round_div (1000 * Z.of_nat completed) (Z.of_nat total)
  else 0%Z.

(** ** Abstract specification: the set of completed weeks *)

Definition progress_abs (p : progress) (a : gset Z) : Prop :=
  NoDup (completed_weeks p) /\ list_to_set (completed_weeks p) = a.

(** ** Lemmas *)

Lemma record_progress_weeks p upd now :
  completed_weeks (record_progress p upd now) =
  append_if_absent (week_completed upd) (completed_weeks p).
Proof. reflexivity. Qed.

Lemma list_to_set_append_if_absent (x : Z) (l : list Z) :
  list_to_set (C := gset Z) (append_if_absent x l) = {[x]} ∪ list_to_set l.
Proof.
  unfold append_if_absent. case_decide as Hx.
  - apply set_eq. intros y. rewrite elem_of_union, elem_of_singleton, elem_of_list_to_set.
    naive_solver.
  - rewrite list_to_set_app_L. cbn. set_solver.
Qed.

Lemma progress_abs_length p a : progress_abs p a -> length (completed_weeks p) = size a.
Proof.
  intros [Hnd <-]. by rewrite size_list_to_set.
Qed.

(** ** Properties *)

(** C5: recording progress refines adding the week to the set of completed
    weeks: the list stays duplicate-free, its set gains exactly the week,
    and the old list is a prefix of the new one (first-seen order). *)
Theorem record_progress_refines p a upd now :
  progress_abs p a ->
  progress_abs (record_progress p upd now) ({[week_completed upd]} ∪ a) /\
  completed_weeks p `prefix_of` completed_weeks (record_progress p upd now).
Proof.
  intros [Hnd <-]. rewrite record_progress_weeks. split; [split |].
  - by apply append_if_absent_NoDup.
  - apply list_to_set_append_if_absent.
  - apply append_if_absent_prefix.
Qed.

(** The percentage is a nearest integer to [1000 * completed / total], and
    0 when the plan has no week. *)
Lemma progress_percentage_nearest (c t : nat) :
  (t = 0%nat /\ progress_percentage c t = 0%Z) \/
  (0 < t)%nat /\
  (Z.of_nat t * (2 * progress_percentage c t - 1) <= 2000 * Z.of_nat c <=
   Z.of_nat t * (2 * progress_percentage c t + 1))%Z.
Proof.
  unfold progress_percentage. destruct (Nat.ltb_spec 0 t) as [Ht|Ht]; [right | left; lia].
  split; [done |]. pose proof (py_round_div_nearest (1000 * Z.of_nat c) (Z.of_nat t)). lia.
Qed.

(** For the totals of stored plans (1 to 4 weeks), Python's
    round-half-to-even gives the same tenths as rounding half up. *)
Lemma progress_percentage_half_up (c t : nat) :
  (1 <= t <= 4)%nat ->
  progress_percentage c t = ((2000 * Z.of_nat c + Z.of_nat t) / (2 * Z.of_nat t))%Z.
Proof.
  intros Ht. unfold progress_percentage, py_round_div.
  destruct (Nat.ltb_spec 0 t); [| lia].
  assert (t = 1 \/ t = 2 \/ t = 3 \/ t = 4)%nat as Hcase by lia.
  generalize (Z.of_nat c) (Nat2Z.is_nonneg c). intros z Hz.
  destruct Hcase as [-> | [-> | [-> | ->]]]; cbn [Z.of_nat Pos.of_succ_nat Pos.succ];
    repeat match goal with
    | |- context [Z.ltb ?a ?b] => destruct (Z.ltb_spec a b)
    | |- context [Z.even ?q] => destruct (Z.even q) eqn:?
    end; Z.div_mod_to_equations; lia.
Qed.

(** C12: for the totals of stored plans (1 to 4 weeks), the percentage in
    tenths is the unique integer strictly within one half of
    [1000 * completed / total]: the quotient is never a tie, so the
    rounding mode does not matter. *)
Theorem percentage_nearest_unique (c t : nat) (z : Z) :
  (1 <= t <= 4)%nat ->
  (Z.of_nat t * (2 * z - 1) < 2000 * Z.of_nat c < Z.of_nat t * (2 * z + 1))%Z <->
  z = progress_percentage c t.
Proof.
  intros Ht. rewrite progress_percentage_half_up by done.
  assert (t = 1 \/ t = 2 \/ t = 3 \/ t = 4)%nat as Hcase by lia.
  generalize (Z.of_nat c) (Nat2Z.is_nonneg c). intros x Hx.
  destruct Hcase as [-> | [-> | [-> | ->]]]; cbn [Z.of_nat Pos.of_succ_nat Pos.succ];
    Z.div_mod_to_equations; lia.
Qed.

(** C13: completing the same week twice leaves [completed_weeks]
    unchanged the second time, while each [project_done] appends the week
    to [completed_projects] again (spec section 9). *)
Theorem record_progress_twice p upd n1 n2 :
  project_done upd = true ->
  let p1 := record_progress p upd n1 in
  let p2 := record_progress p1 upd n2 in
  completed_weeks p2 = completed_weeks p1 /\
  completed_projects p2 =
    Some (default [] (completed_projects p) ++ [week_completed upd; week_completed upd]).
Proof.
  intros Hpd. cbn zeta. unfold record_progress at 1. cbn [completed_weeks completed_projects].
  split.
  - apply append_if_absent_present. unfold record_progress. cbn.
    apply append_if_absent_elem. by left.
  - unfold record_progress, setdefault_append. rewrite Hpd. cbn. by rewrite <- app_assoc.
Qed.

(** An update whose note is the empty string records no note: the code
    tests [if update.notes:], which is false on [""]. *)
Example record_progress_empty_note :
  notes (record_progress init_progress (mk_update "abcd1234" 1 false (Some "")) "t") = None /\
  notes (record_progress init_progress (mk_update "abcd1234" 1 false (Some "done")) "t") =
    Some [mk_note 1 "done" "t"].
Proof. split; reflexivity. Qed.

(** ** Witnesses *)

Definition example_update : ProgressUpdate := mk_update "abcd1234" 2 true None.

Lemma record_progress_refines_witness :
  progress_abs init_progress ∅ /\
  (progress_abs (record_progress init_progress example_update "t") ({[2%Z]} ∪ ∅) /\
   completed_weeks init_progress `prefix_of`
     completed_weeks (record_progress init_progress example_update "t")).
Proof.
  assert (progress_abs init_progress ∅) as H0 by (split; [constructor | reflexivity]).
  split; [exact H0 | apply (record_progress_refines init_progress ∅ example_update "t" H0)].
Defined.

Lemma percentage_nearest_unique_witness :
  (1 <= 3 <= 4)%nat /\
  ((Z.of_nat 3 * (2 * 333 - 1) < 2000 * Z.of_nat 1 < Z.of_nat 3 * (2 * 333 + 1))%Z <->
   333%Z = progress_percentage 1 3).
Proof. split; [lia | apply (percentage_nearest_unique 1 3 333); lia]. Defined.

Lemma record_progress_twice_witness :
  project_done example_update = true /\
  (let p1 := record_progress init_progress example_update "t1" in
   let p2 := record_progress p1 example_update "t2" in
   completed_weeks p2 = completed_weeks p1 /\
   completed_projects p2 =
     Some (default [] (completed_projects init_progress) ++
           [week_completed example_update; week_completed example_update])).
Proof.
  split; [reflexivity |].
  apply (record_progress_twice init_progress example_update "t1" "t2"). reflexivity.
Defined.

End Progress.
