(* ===== verification/Registry.v ===== *)
(** * Plan registry and the HTTP handlers (src/main.py lines 40, 116-155,
      436-511)

    [progress_db] is the process-wide dictionary from a roadmap id to its
    entry [{"roadmap", "progress", "created_at"}].  The handlers are written
    against the interface [PlanStore] (lookup and insert, with the laws of
    [PlanStoreLaws]); the dictionary itself is the [gmap] instance at the
    end.  Each state-changing handler returns its response and the new
    store; the values the code draws from the environment ([uuid4],
    [datetime.now], [os.getenv], the external service) are arguments.

    [step] is the transition relation of the store: one generation or one
    progress update; the read handlers do not change it.  Requests are
    handled one at a time, in the order of the trace (the spec's
    single-process model; no interleaving inside a handler is modelled). *)

From stdpp Require Import base gmap strings list relations.
From Stdlib Require Import ZArith.
From S2P Require Import Prelude Catalog Topic Structure Plan Assembler Fallback Progress.

Module Registry.
Import Topic Structure Assembler Fallback Progress.

(** A value of [progress_db]. *)
Record entry : Type := mk_entry {
  e_roadmap : roadmap;
  e_progress : progress;
  e_created_at : string
}.

(** ** The store interface *)

Class PlanStore (Store : Type) := {
  store_empty : Store;
  store_lookup : Store -> string -> option entry;
  store_insert : string -> entry -> Store -> Store
}.

Class PlanStoreLaws (Store : Type) `{PlanStore Store} := {
  store_lookup_empty k : store_lookup store_empty k = None;
  store_lookup_insert_eq s k e : store_lookup (store_insert k e s) k = Some e;
  store_lookup_insert_ne s k k' e :
    k <> k' -> store_lookup (store_insert k e s) k' = store_lookup s k'
}.

(** ** Responses *)

Record progress_response : Type := mk_presp {
  pr_status : string;
  pr_progress_percentage : Z;   (* tenths of a percent *)
  pr_completed_weeks : list Z;
  pr_total_weeks : nat
}.

Record stats : Type := mk_stats {
  st_progress_percentage : Z;
  st_completed_weeks : nat;
  st_total_weeks : nat
}.

Record timeline_item : Type := mk_item {
  ti_week : nat;
  ti_theme : string;
  ti_completed : bool;
  ti_project : string
}.

Record timeline_response : Type := mk_tresp {
  timeline : list timeline_item;
  tr_total_weeks : nat;
  tr_completed_weeks : nat
}.

(** The descriptor of [GET /] (lines 116-123). *)
Record app_info : Type := mk_info {
  application : string;
  version : string;
  app_status : string;
  features : list string
}.

Definition root : app_info :=
  mk_info "Intelligent Learning Roadmap Generator Pro" "3.0" "active"
    ["Real projects"; "Working resources"; "Progress tracking"; "Visual timeline"].

Definition not_found {A} : result A := Raise (HTTPException 404 "Roadmap not found").

(** Lines 140-142: the metadata [generate_roadmap] adds. *)
Definition set_metadata (r : roadmap) (rid now : string) (t : topic) : roadmap :=
  {| rm_roadmap_id := Some rid; rm_title := rm_title r; rm_overview := rm_overview r;
     rm_prerequisites := rm_prerequisites r; rm_weekly_plan := rm_weekly_plan r;
     rm_milestone_projects := rm_milestone_projects r;
     rm_success_tips := rm_success_tips r;
     rm_community_recommendations := rm_community_recommendations r;
     rm_visual_timeline := rm_visual_timeline r;
     rm_generated_at := Some now; rm_topic := Some t |}.

Section Handlers.
Context {Store : Type} `{PlanStore Store}.
Variable openrouter : ai_request -> ai_outcome.

(** [generate_roadmap] (lines 125-155): [rid]/[now] are the id and time
    drawn in the [try] block, [rid_fb]/[now_fb] the ones
    [create_fallback_roadmap] draws.  The fallback plan is returned but
    not stored. *)
Definition generate_roadmap (api_key : option string) (u : EnhancedUserInput)
    (rid now rid_fb now_fb : string) (db : Store) : result roadmap * Store :=
  let t := detect_topic (str_lower (goal u)) in
  let attempt :=
    let raw := get_ai_roadmap_structure openrouter api_key u in
    let* r := enhance_with_real_content REAL_RESOURCES REAL_PROJECTS raw t u in
    Ok (set_metadata r rid now t) in
  match attempt with
  | Ok r => (Ok r, store_insert rid (mk_entry r init_progress now) db)
  | Raise _ => (create_fallback_roadmap REAL_RESOURCES REAL_PROJECTS u t rid_fb now_fb, db)
  end.
End Handlers.

Section ReadHandlers.
Context {Store : Type} `{PlanStore Store}.

(** [update_progress] (lines 436-467). *)
Definition update_progress (upd : ProgressUpdate) (now : string) (db : Store)
    : result progress_response * Store :=
  match store_lookup db (roadmap_id upd) with
  | None => (not_found, db)
  | Some e =>
      let p' := record_progress (e_progress e) upd now in
      let e' := mk_entry (e_roadmap e) p' (e_created_at e) in
      let total := length (rm_weekly_plan (e_roadmap e)) in
      let completed := length (completed_weeks p') in
      (Ok (mk_presp "success" (progress_percentage completed total)
             (completed_weeks p') total),
       store_insert (roadmap_id upd) e' db)
  end.

(** Consecutive update requests, all at time [now]. *)
Fixpoint run_updates (ups : list ProgressUpdate) (now : string) (db : Store) : Store :=
  match ups with
  | [] => db
  | upd :: ups' => run_updates ups' now (snd (update_progress upd now db))
  end.

(** [get_roadmap] (lines 469-487): the entry and its statistics. *)
Definition get_roadmap (rid : string) (db : Store) : result (entry * stats) :=
  match store_lookup db rid with
  | None => not_found
  | Some e =>
      let total := length (rm_weekly_plan (e_roadmap e)) in
      let completed := length (completed_weeks (e_progress e)) in
      Ok (e, mk_stats (progress_percentage completed total) completed total)
  end.

(** [get_visual_timeline] (lines 489-511). *)
Definition get_visual_timeline (rid : string) (db : Store) : result timeline_response :=
  match store_lookup db rid with
  | None => not_found
  | Some e =>
      let cw := completed_weeks (e_progress e) in
      let items := (fun w => mk_item (w_week w) (w_theme w)
                               (bool_decide (Z.of_nat (w_week w) ∈ cw))
                               (p_title (w_project w)))
                   <$> rm_weekly_plan (e_roadmap e) in
      Ok (mk_tresp items (length items) (length cw))
  end.
End ReadHandlers.

(** ** The store as a transition system *)

Inductive step {Store : Type} `{PlanStore Store} : Store -> Store -> Prop :=
  | step_generate openrouter api_key u rid now rid_fb now_fb db r db' :
      generate_roadmap openrouter api_key u rid now rid_fb now_fb db = (r, db') ->
      step db db'
  | step_update upd now db r db' :
      update_progress upd now db = (r, db') ->
      step db db'.

Definition reachable {Store : Type} `{PlanStore Store} (db : Store) : Prop := rtc step store_empty db.

(** ** Invariant of the store *)

(** What holds of every stored entry: its plan is well formed (contiguous
    weeks, at most four), it is stored under its own id, its completed weeks
    are duplicate-free, and its ["completed_projects"] key exists. *)
Definition entry_ok (k : string) (e : entry) : Prop :=
  plan_wf (e_roadmap e) /\ rm_roadmap_id (e_roadmap e) = Some k /\
  NoDup (completed_weeks (e_progress e)) /\ is_Some (completed_projects (e_progress e)).

Definition store_inv {Store : Type} `{PlanStore Store} (db : Store) : Prop :=
  forall k e, store_lookup db k = Some e -> entry_ok k e.

Section StoreLemmas.
Context {Store : Type} `{PlanStoreLaws Store}.

Lemma store_inv_empty : store_inv store_empty.
Proof. intros k e. by rewrite store_lookup_empty. Qed.

Lemma store_inv_insert db k e :
  store_inv db -> entry_ok k e -> store_inv (store_insert k e db).
Proof.
  intros Hdb He k' e'. destruct (decide (k = k')) as [<-|Hne].
  - rewrite store_lookup_insert_eq. by intros [= <-].
  - rewrite store_lookup_insert_ne by done. apply Hdb.
Qed.

(** The attempt of [generate_roadmap] either assembles a plan, stored
    under [rid], or falls back without touching the store. *)
Lemma generate_roadmap_cases openrouter api_key u rid now rid_fb now_fb db :
  let t := detect_topic (str_lower (goal u)) in
  let raw := get_ai_roadmap_structure openrouter api_key u in
  (exists r, enhance_with_real_content REAL_RESOURCES REAL_PROJECTS raw t u = Ok r /\
     generate_roadmap openrouter api_key u rid now rid_fb now_fb db =
       (Ok (set_metadata r rid now t),
        store_insert rid (mk_entry (set_metadata r rid now t) init_progress now) db)) \/
  (exists e, enhance_with_real_content REAL_RESOURCES REAL_PROJECTS raw t u = Raise e /\
     generate_roadmap openrouter api_key u rid now rid_fb now_fb db =
       (create_fallback_roadmap REAL_RESOURCES REAL_PROJECTS u t rid_fb now_fb, db)).
Proof.
  cbn zeta. unfold generate_roadmap.
  destruct (enhance_with_real_content _ _ _ _ _) as [r|e]; cbn; [left | right]; eauto.
Qed.

Lemma generate_preserves openrouter api_key u rid now rid_fb now_fb db r db' :
  generate_roadmap openrouter api_key u rid now rid_fb now_fb db = (r, db') ->
  store_inv db -> store_inv db'.
Proof.
  intros Hg Hdb.
  destruct (generate_roadmap_cases openrouter api_key u rid now rid_fb now_fb db)
    as [(r0 & Her & Hgen) | (e & _ & Hgen)]; rewrite Hgen in Hg; injection Hg as <- <-;
    [| done].
  apply store_inv_insert; [done |].
  pose proof (Assembler.enhance_plan_wf _ _ _ _ _ _ Her) as Hwf.
  split_and!; [exact Hwf | done | constructor | by eexists].
Qed.

Lemma entry_ok_record k e upd now :
  entry_ok k e ->
  entry_ok k (mk_entry (e_roadmap e) (record_progress (e_progress e) upd now) (e_created_at e)).
Proof.
  intros (Hwf & Hid & Hnd & Hcp). split_and!; cbn; try done.
  - by apply append_if_absent_NoDup.
  - by destruct (project_done upd).
Qed.

Lemma update_preserves upd now db r db' :
  update_progress upd now db = (r, db') -> store_inv db -> store_inv db'.
Proof.
  unfold update_progress. intros Hu Hdb.
  destruct (store_lookup db (roadmap_id upd)) as [e|] eqn:He; injection Hu as <- <-;
    [| done].
  apply store_inv_insert; [done |]. by apply entry_ok_record, Hdb.
Qed.

Lemma step_preserves db db' : step db db' -> store_inv db -> store_inv db'.
Proof.
  intros []; [eapply generate_preserves | eapply update_preserves]; eauto.
Qed.

Lemma rtc_step_store_inv db db' : rtc step db db' -> store_inv db -> store_inv db'.
Proof.
  induction 1 as [|x y z Hs _ IH]; [done |].
  intros Hx. by apply IH, (step_preserves x y).
Qed.

(** C1: every store reachable from the empty one by generations and
    progress updates holds only well-formed plans (at most four weeks,
    numbered 1..n), each under its own id, with duplicate-free completed
    weeks. *)
Theorem reachable_store_inv db : reachable db -> store_inv db.
Proof. intros Hr. exact (rtc_step_store_inv _ _ Hr store_inv_empty). Qed.


(** The fallback plan built on the real catalogs always exists, carries
    the id it was given and is well formed. *)
Lemma fallback_real_ok u t rid now :
  exists r, create_fallback_roadmap REAL_RESOURCES REAL_PROJECTS u t rid now = Ok r /\
    rm_roadmap_id r = Some rid /\ plan_wf r.
Proof.
  destruct t; eexists; unfold plan_wf, weeks_contiguous; split_and!;
    try reflexivity; cbn; lia.
Qed.

(** C7: a generation request always answers with a plan (never an
    exception), and the plan is well formed: between zero and four weeks,
    numbered from 1. *)
Theorem generate_total openrouter api_key u rid now rid_fb now_fb db :
  exists r, fst (generate_roadmap openrouter api_key u rid now rid_fb now_fb db) = Ok r /\
    plan_wf r.
Proof.
  destruct (generate_roadmap_cases openrouter api_key u rid now rid_fb now_fb db)
    as [(r0 & Her & ->) | (e & _ & ->)]; cbn [fst].
  - eexists. split; [reflexivity |]. exact (Assembler.enhance_plan_wf _ _ _ _ _ _ Her).
  - destruct (fallback_real_ok u (detect_topic (str_lower (goal u))) rid_fb now_fb)
      as (r & -> & _ & Hwf). eauto.
Qed.

(** C14: when the assembly raises, [generate_roadmap] answers with the
    fallback plan under the fresh id [rid_fb] but leaves the store
    unchanged, so a progress update for the id it just returned is
    rejected with 404. *)
Theorem generate_fallback_unstored openrouter api_key u rid now rid_fb now_fb db upd now' :
  is_ok (enhance_with_real_content REAL_RESOURCES REAL_PROJECTS
           (get_ai_roadmap_structure openrouter api_key u)
           (detect_topic (str_lower (goal u))) u) = false ->
  store_lookup db rid_fb = None ->
  roadmap_id upd = rid_fb ->
  exists r, generate_roadmap openrouter api_key u rid now rid_fb now_fb db = (Ok r, db) /\
    rm_roadmap_id r = Some rid_fb /\
    update_progress upd now' db = (not_found, db).
Proof.
  intros Hfail Hnone Hid.
  destruct (generate_roadmap_cases openrouter api_key u rid now rid_fb now_fb db)
    as [(r0 & Her & _) | (e & _ & ->)]; [by rewrite Her in Hfail |].
  destruct (fallback_real_ok u (detect_topic (str_lower (goal u))) rid_fb now_fb)
    as (r & -> & Hrid & _).
  exists r. split_and!; [done | done |].
  unfold update_progress. by rewrite Hid, Hnone.
Qed.

(** C15: a successful generation stores the new plan under [rid] with an
    empty progress record, replacing whatever entry the store held under
    that id: the 8-character id is not checked for collisions. *)
Theorem generate_overwrites openrouter api_key u rid now rid_fb now_fb db e_old :
  store_lookup db rid = Some e_old ->
  is_ok (enhance_with_real_content REAL_RESOURCES REAL_PROJECTS
           (get_ai_roadmap_structure openrouter api_key u)
           (detect_topic (str_lower (goal u))) u) = true ->
  exists r db', generate_roadmap openrouter api_key u rid now rid_fb now_fb db = (Ok r, db') /\
    store_lookup db' rid = Some (mk_entry r init_progress now).
Proof.
  intros _ Hok.
  destruct (generate_roadmap_cases openrouter api_key u rid now rid_fb now_fb db)
    as [(r0 & Her & ->) | (e & Her & _)]; [| by rewrite Her in Hok].
  do 2 eexists. split; [reflexivity | apply store_lookup_insert_eq].
Qed.

(** C6: the three handlers that take a roadmap id answer 404 for an id
    that is not in the store, and the update leaves the store unchanged. *)
Theorem handlers_not_found upd now db :
  store_lookup db (roadmap_id upd) = None ->
  update_progress upd now db = (not_found, db) /\
  get_roadmap (roadmap_id upd) db = not_found /\
  get_visual_timeline (roadmap_id upd) db = not_found.
Proof.
  intros Hn. unfold update_progress, get_roadmap, get_visual_timeline. by rewrite Hn.
Qed.

(** C4: on a reachable store, an update of a stored plan records the
    week, reports the completed weeks in first-seen order and the plan's
    week count, and a percentage in tenths equal to 1000 * completed /
    total rounded half up (0 for a plan without weeks); the entry is
    updated in place and no other entry changes. *)
Theorem update_progress_reachable upd now db e :
  reachable db ->
  store_lookup db (roadmap_id upd) = Some e ->
  let p' := record_progress (e_progress e) upd now in
  let t := length (rm_weekly_plan (e_roadmap e)) in
  let c := length (completed_weeks p') in
  exists pct,
    update_progress upd now db =
      (Ok (mk_presp "success" pct (completed_weeks p') t),
       store_insert (roadmap_id upd) (mk_entry (e_roadmap e) p' (e_created_at e)) db) /\
    t <= 4 /\
    (t = 0 -> pct = 0%Z) /\
    (1 <= t -> pct = ((2000 * Z.of_nat c + Z.of_nat t) / (2 * Z.of_nat t))%Z).
Proof.
  intros Hr He. cbn zeta.
  destruct (rtc_step_store_inv _ _ Hr store_inv_empty _ _ He) as ((_ & Hle) & _).
  exists (progress_percentage (length (completed_weeks (record_progress (e_progress e) upd now)))
            (length (rm_weekly_plan (e_roadmap e)))).
  split_and!; [unfold update_progress; by rewrite He | done | |].
  - intros ->. reflexivity.
  - intros Ht. apply progress_percentage_half_up. lia.
Qed.

Lemma get_ai_no_key openrouter api_key u :
  py_truthy_str api_key = false ->
  get_ai_roadmap_structure openrouter api_key u = RSObject (create_basic_structure u).
Proof. destruct api_key; cbn; [intros ->|]; done. Qed.

(** C16: Without a credential, generation stores the deterministic default
    plan: four weeks with the fixed themes and the increasing estimates. *)
Theorem generate_default_plan openrouter api_key u rid now rid_fb now_fb db :
  py_truthy_str api_key = false ->
  exists r, generate_roadmap openrouter api_key u rid now rid_fb now_fb db =
      (Ok r, store_insert rid (mk_entry r init_progress now) db) /\
    rm_roadmap_id r = Some rid /\
    w_theme <$> rm_weekly_plan r =
      ["Foundation & Setup"; "Core Concepts"; "Advanced Techniques"; "Real Projects"] /\
    w_time_estimate <$> rm_weekly_plan r =
      ["10-15 hours"; "15-20 hours"; "20-25 hours"; "25-30 hours"].
Proof.
  intros Hk. unfold generate_roadmap. rewrite get_ai_no_key by done.
  generalize (detect_topic (str_lower (goal u))) as t. intros t.
  destruct t; eexists; split_and!; reflexivity.
Qed.

(** The update of a stored entry: the entry becomes its recorded version and
    no other id changes. *)
Lemma update_progress_store upd now db e k :
  store_lookup db (roadmap_id upd) = Some e ->
  store_lookup (snd (update_progress upd now db)) k =
    if decide (k = roadmap_id upd)
    then Some (mk_entry (e_roadmap e) (record_progress (e_progress e) upd now) (e_created_at e))
    else store_lookup db k.
Proof.
  intros He. unfold update_progress. rewrite He. cbn [snd].
  case_decide as Hk; [subst; apply store_lookup_insert_eq |].
  by apply store_lookup_insert_ne.
Qed.

(** C17: Updates of one stored plan refine the set semantics: after any
    sequence of updates addressed to it, its completed weeks are
    duplicate-free and hold exactly the weeks it had and the weeks sent,
    and its plan is unchanged. *)
Theorem run_updates_refine ups now db rid e :
  store_inv db -> store_lookup db rid = Some e ->
  Forall (fun upd => roadmap_id upd = rid) ups ->
  exists e', store_lookup (run_updates ups now db) rid = Some e' /\
    e_roadmap e' = e_roadmap e /\
    progress_abs (e_progress e')
      (list_to_set (completed_weeks (e_progress e)) ∪ list_to_set (week_completed <$> ups)).
Proof.
  revert db e. induction ups as [|upd ups IH]; intros db e Hinv He Hall; cbn [run_updates].
  - exists e. destruct (Hinv _ _ He) as (_ & _ & Hnd & _).
    split; [done |]. split; [done |]. split; [done | cbn; set_solver].
  - apply Forall_cons in Hall as [Hid Hall].
    pose proof (update_progress_store upd now db e rid ltac:(by rewrite Hid)) as Hst.
    rewrite decide_True in Hst by done.
    destruct (update_progress upd now db) as [r db1] eqn:Hu. cbn [snd] in Hst.
    destruct (IH db1 _ (update_preserves _ _ _ _ _ Hu Hinv) Hst Hall)
      as (e' & He' & Hr & Hnd & Hset).
    exists e'. split; [done |]. split; [done |]. split; [done |]. rewrite Hset.
    cbn [e_progress completed_weeks record_progress].
    rewrite list_to_set_append_if_absent. set_solver.
Qed.

Lemma run_updates_reachable ups now db : reachable db -> reachable (run_updates ups now db).
Proof.
  revert db. induction ups as [|upd ups IH]; intros db Hr; cbn [run_updates]; [done |].
  apply IH. destruct (update_progress upd now db) as [r db'] eqn:Hu. cbn [snd].
  eapply rtc_r; [exact Hr |]. eapply step_update. exact Hu.
Qed.

(** C20: Week numbers are not range-checked: on a reachable store, an update
    with a new week number for a plan whose recorded weeks already number
    at least its total reports more than 100 percent. *)
Theorem update_percentage_over_100 upd now db e :
  reachable db -> store_lookup db (roadmap_id upd) = Some e ->
  (1 <= length (rm_weekly_plan (e_roadmap e)) <= length (completed_weeks (e_progress e)))%nat ->
  week_completed upd ∉ completed_weeks (e_progress e) ->
  exists resp db', update_progress upd now db = (Ok resp, db') /\
    (1000 < pr_progress_percentage resp)%Z.
Proof.
  intros Hr He Ht Hw.
  destruct (rtc_step_store_inv _ _ Hr store_inv_empty _ _ He) as ((_ & Hle) & _).
  unfold update_progress. rewrite He. do 2 eexists. split; [reflexivity |].
  cbn [pr_progress_percentage].
  rewrite record_progress_weeks, append_if_absent_absent, length_app by done. cbn [length].
  rewrite progress_percentage_half_up by lia.
  remember (length (rm_weekly_plan (e_roadmap e))) as t.
  remember (length (completed_weeks (e_progress e))) as c.
  assert (t = 1 \/ t = 2 \/ t = 3 \/ t = 4)%nat as Hc by lia.
  destruct Hc as [-> | [-> | [-> | ->]]]; Z.div_mod_to_equations; lia.
Qed.

(** C18: The visual timeline of a plan in a reachable store lists its weeks
    numbered 1..n with n <= 4, counts the completed weeks of its progress
    record, and marks week [i+1] completed exactly when that number was
    recorded. *)
Theorem visual_timeline_reachable rid db tr :
  reachable db -> get_visual_timeline rid db = Ok tr ->
  ti_week <$> timeline tr = seq 1 (tr_total_weeks tr) /\ tr_total_weeks tr <= 4 /\
  exists e, store_lookup db rid = Some e /\
    tr_completed_weeks tr = length (completed_weeks (e_progress e)) /\
    forall i item, timeline tr !! i = Some item ->
      ti_completed item = bool_decide (Z.of_nat (S i) ∈ completed_weeks (e_progress e)).
Proof.
  intros Hr Hg. unfold get_visual_timeline in Hg.
  destruct (store_lookup db rid) as [e|] eqn:He; [| discriminate]. injection Hg as <-.
  destruct (rtc_step_store_inv _ _ Hr store_inv_empty _ _ He) as ((Hc & Hle) & _).
  unfold weeks_contiguous in Hc. cbn [timeline tr_total_weeks tr_completed_weeks].
  rewrite length_fmap, <- list_fmap_compose. split_and!; [exact Hc | lia |].
  exists e. split_and!; [done | done |]. intros i item Hi.
  rewrite list_lookup_fmap in Hi. destruct (rm_weekly_plan (e_roadmap e) !! i) as [w|] eqn:Hw;
    [| discriminate]. injection Hi as <-.
  pose proof (f_equal (fun l => l !! i) Hc) as Hi'. cbn beta in Hi'.
  rewrite list_lookup_fmap, Hw in Hi'. symmetry in Hi'.
  apply lookup_seq in Hi' as [Hwk _]. cbn. by rewrite Hwk.
Qed.
End StoreLemmas.

(** ** A service that answers with no week *)

Section EmptyThemes.
Context {Store : Type} `{PlanStoreLaws Store}.
Variable openrouter : ai_request -> ai_outcome.
Variables (title overview : string) (focus : option (list string))
  (objectives : option (list (list string))).

(** The service answers every request with an object whose theme list is
    empty (its title and overview present). *)
Hypothesis H_empty_answer : forall req,
  openrouter req =
    AIResponse 200 (AIObject (mk_structure (Some title) (Some overview) (Some [])
                                focus objectives)).

(** C19: when the service answers with an empty theme list (the section's
    hypothesis) and a key is configured, generation assembles and stores a
    plan with zero weeks, contrary to the 1-4 weeks of the spec, and the next update of that plan,
    whatever week it records, reports 0 percent with 0 total weeks. *)
Theorem generate_empty_themes api_key u rid now rid_fb now_fb db upd now' :
  py_truthy_str api_key = true -> roadmap_id upd = rid ->
  exists r, generate_roadmap openrouter api_key u rid now rid_fb now_fb db =
      (Ok r, store_insert rid (mk_entry r init_progress now) db) /\
    rm_weekly_plan r = [] /\
    exists resp db', update_progress upd now' (store_insert rid (mk_entry r init_progress now) db) =
        (Ok resp, db') /\
      pr_progress_percentage resp = 0%Z /\ pr_total_weeks resp = 0.
Proof.
  intros Hk Hid.
  assert (get_ai_roadmap_structure openrouter api_key u =
          RSObject (mk_structure (Some title) (Some overview) (Some []) focus objectives)) as Hraw.
  { destruct api_key as [k|]; [| discriminate]. cbn [get_ai_roadmap_structure].
    by rewrite Hk, H_empty_answer. }
  unfold generate_roadmap. rewrite Hraw.
  generalize (detect_topic (str_lower (goal u))) as t. intros t.
  destruct t; eexists; (split; [reflexivity |]); (split; [reflexivity |]);
    unfold update_progress; rewrite Hid, store_lookup_insert_eq;
    do 2 eexists; (split; [reflexivity |]); split; reflexivity.
Qed.
End EmptyThemes.

(** ** The dictionary instance *)

#[export] Instance gmap_store : PlanStore (gmap string entry) := {
  store_empty := ∅;
  store_lookup db k := db !! k;
  store_insert k e db := <[k := e]> db
}.

#[export] Instance gmap_store_laws : PlanStoreLaws (gmap string entry).
Proof.
  split; cbn.
  - intros k. apply lookup_empty.
  - intros s k e. apply lookup_insert_eq.
  - intros s k k' e Hne. by apply lookup_insert_ne.
Qed.

(** ** Examples and witnesses on the dictionary store *)

Abbreviation db_t := (gmap string entry).

(** A service that is never reached (no key is configured). *)
Definition no_service : ai_request -> ai_outcome := fun _ => AITransportError.

(** A service whose structure is missing its ["title"] key. *)
Definition untitled_service : ai_request -> ai_outcome := fun _ =>
  AIResponse 200 (AIObject (mk_structure None (Some "O") (Some ["Basics"])
                              (Some ["Focus"]) (Some [["Objective"]]))).

(** A service that answers with no week at all. *)
Definition empty_service : ai_request -> ai_outcome := fun _ =>
  AIResponse 200 (AIObject (mk_structure (Some "T") (Some "O") (Some []) None None)).

Definition gen_example : result roadmap * db_t :=
  generate_roadmap no_service None example_input "abcd1234" "2026-11-09T10:00:00"
    "ffff0000" "2026-11-09T10:00:01" ∅.

Definition example_store : db_t := snd gen_example.

Definition week_update (w : Z) : ProgressUpdate := mk_update "abcd1234" w true None.

Definition apply_updates (ups : list ProgressUpdate) (db : db_t) : db_t :=
  run_updates ups "t" db.

Lemma example_store_reachable : reachable example_store.
Proof.
  apply rtc_once.
  eapply (step_generate no_service None example_input "abcd1234" "2026-11-09T10:00:00"
            "ffff0000" "2026-11-09T10:00:01").
  reflexivity.
Qed.

(** The spec's generation example: no credential, topic python, four
    weeks, week 1 "Foundation & Setup" estimated at "10-15 hours". *)
Example spec_example_generate :
  match fst gen_example with
  | Ok r => (rm_topic r, length (rm_weekly_plan r),
             w_theme <$> head (rm_weekly_plan r), w_time_estimate <$> head (rm_weekly_plan r))
  | Raise _ => (None, 0, None, None)
  end = (Some TPython, 4, Some "Foundation & Setup", Some "10-15 hours").
Proof. vm_compute. reflexivity. Qed.

(** The spec's update example: week 2 with its project on a fresh 4-week
    plan gives 25.0 percent, weeks [2], total 4; repeating it does not
    duplicate the week but duplicates the project. *)
Example spec_example_update :
  fst (update_progress (week_update 2) "t" example_store) =
    Ok (mk_presp "success" 250 [2%Z] 4) /\
  (completed_projects <$> (e_progress <$>
     apply_updates [week_update 2; week_update 2] example_store !! "abcd1234")) =
    Some (Some [2%Z; 2%Z]).
Proof. vm_compute. split; reflexivity. Qed.

Lemma reachable_store_inv_witness : reachable example_store /\ store_inv example_store.
Proof.
  split; [exact example_store_reachable |].
  apply (reachable_store_inv example_store). exact example_store_reachable.
Defined.

Lemma handlers_not_found_witness :
  store_lookup (∅ : db_t) (roadmap_id (mk_update "zzzz9999" 1 false None)) = None /\
  (update_progress (mk_update "zzzz9999" 1 false None) "t" (∅ : db_t) = (not_found, ∅) /\
   get_roadmap "zzzz9999" (∅ : db_t) = not_found /\
   get_visual_timeline "zzzz9999" (∅ : db_t) = not_found).
Proof.
  split; [reflexivity |].
  apply (handlers_not_found (mk_update "zzzz9999" 1 false None) "t" (∅ : db_t)). reflexivity.
Defined.

Lemma update_progress_reachable_witness :
  exists e, reachable example_store /\
    store_lookup example_store (roadmap_id (week_update 2)) = Some e /\
    (let p' := record_progress (e_progress e) (week_update 2) "t" in
     let t := length (rm_weekly_plan (e_roadmap e)) in
     let c := length (completed_weeks p') in
     exists pct,
       update_progress (week_update 2) "t" example_store =
         (Ok (mk_presp "success" pct (completed_weeks p') t),
          store_insert (roadmap_id (week_update 2))
            (mk_entry (e_roadmap e) p' (e_created_at e)) example_store) /\
       t <= 4 /\ (t = 0 -> pct = 0%Z) /\
       (1 <= t -> pct = ((2000 * Z.of_nat c + Z.of_nat t) / (2 * Z.of_nat t))%Z)).
Proof.
  eexists. split; [exact example_store_reachable |]. split; [reflexivity |].
  apply (update_progress_reachable (week_update 2) "t" example_store);
    [exact example_store_reachable | reflexivity].
Defined.

Lemma generate_fallback_unstored_witness :
  is_ok (enhance_with_real_content REAL_RESOURCES REAL_PROJECTS
           (get_ai_roadmap_structure untitled_service (Some "sk") example_input)
           (detect_topic (str_lower (goal example_input))) example_input) = false /\
  store_lookup (∅ : db_t) "ffff0000" = None /\
  roadmap_id (mk_update "ffff0000" 1 true None) = "ffff0000" /\
  (exists r, generate_roadmap untitled_service (Some "sk") example_input "abcd1234" "t0"
               "ffff0000" "t1" (∅ : db_t) = (Ok r, ∅) /\
     rm_roadmap_id r = Some "ffff0000" /\
     update_progress (mk_update "ffff0000" 1 true None) "t2" (∅ : db_t) =
       (not_found, ∅)).
Proof.
  split_and!; [vm_compute; reflexivity | reflexivity | reflexivity |].
  apply (generate_fallback_unstored untitled_service (Some "sk") example_input "abcd1234" "t0"
           "ffff0000" "t1" ∅ (mk_update "ffff0000" 1 true None) "t2");
    [vm_compute; reflexivity | reflexivity | reflexivity].
Defined.

(** A second generation that draws the id of a plan already in progress
    replaces its entry, dropping the recorded progress. *)
Lemma generate_overwrites_witness :
  let db := apply_updates [week_update 2] example_store in
  (exists e_old, store_lookup db "abcd1234" = Some e_old) /\
  is_ok (enhance_with_real_content REAL_RESOURCES REAL_PROJECTS
           (get_ai_roadmap_structure no_service None example_input)
           (detect_topic (str_lower (goal example_input))) example_input) = true /\
  (exists r db', generate_roadmap no_service None example_input "abcd1234" "t3"
                   "ffff0000" "t4" db = (Ok r, db') /\
     store_lookup db' "abcd1234" = Some (mk_entry r init_progress "t3")).
Proof.
  cbn zeta. split_and!; [eexists; reflexivity | vm_compute; reflexivity |].
  eapply (generate_overwrites no_service None example_input "abcd1234" "t3" "ffff0000" "t4");
    [reflexivity | vm_compute; reflexivity].
Defined.

Lemma generate_default_plan_witness :
  py_truthy_str None = false /\
  exists r, generate_roadmap no_service None example_input "abcd1234" "t0" "ffff0000" "t1"
              (∅ : db_t) =
      (Ok r, store_insert "abcd1234" (mk_entry r init_progress "t0") (∅ : db_t)) /\
    rm_roadmap_id r = Some "abcd1234" /\
    w_theme <$> rm_weekly_plan r =
      ["Foundation & Setup"; "Core Concepts"; "Advanced Techniques"; "Real Projects"] /\
    w_time_estimate <$> rm_weekly_plan r =
      ["10-15 hours"; "15-20 hours"; "20-25 hours"; "25-30 hours"].
Proof.
  split; [reflexivity |].
  apply (generate_default_plan no_service None example_input "abcd1234" "t0" "ffff0000" "t1" ∅).
  reflexivity.
Defined.

Lemma run_updates_refine_witness :
  exists e,
    store_inv example_store /\ store_lookup example_store "abcd1234" = Some e /\
    Forall (fun upd => roadmap_id upd = "abcd1234") [week_update 2; week_update 2; week_update 3] /\
    (exists e', store_lookup (run_updates [week_update 2; week_update 2; week_update 3] "t"
                                example_store) "abcd1234" = Some e' /\
       e_roadmap e' = e_roadmap e /\
       progress_abs (e_progress e')
         (list_to_set (completed_weeks (e_progress e)) ∪
          list_to_set (week_completed <$> [week_update 2; week_update 2; week_update 3]))).
Proof.
  pose proof (rtc_step_store_inv _ _ example_store_reachable store_inv_empty) as Hinv.
  eexists. split_and!; [exact Hinv | reflexivity | repeat constructor |].
  apply (run_updates_refine [week_update 2; week_update 2; week_update 3] "t" example_store
           "abcd1234"); [exact Hinv | reflexivity | repeat constructor].
Defined.

Lemma visual_timeline_reachable_witness :
  exists tr, reachable example_store /\ get_visual_timeline "abcd1234" example_store = Ok tr /\
    (ti_week <$> timeline tr = seq 1 (tr_total_weeks tr) /\ tr_total_weeks tr <= 4 /\
     exists e, store_lookup example_store "abcd1234" = Some e /\
       tr_completed_weeks tr = length (completed_weeks (e_progress e)) /\
       forall i item, timeline tr !! i = Some item ->
         ti_completed item = bool_decide (Z.of_nat (S i) ∈ completed_weeks (e_progress e))).
Proof.
  eexists. split; [exact example_store_reachable |]. split; [reflexivity |].
  apply (visual_timeline_reachable "abcd1234" example_store);
    [exact example_store_reachable | reflexivity].
Defined.


Lemma update_percentage_over_100_witness :
  let db := apply_updates (week_update <$> [1; 2; 3; 4]%Z) example_store in
  exists e, reachable db /\ store_lookup db (roadmap_id (week_update 5)) = Some e /\
    (1 <= length (rm_weekly_plan (e_roadmap e)) <= length (completed_weeks (e_progress e)))%nat /\
    week_completed (week_update 5) ∉ completed_weeks (e_progress e) /\
    exists resp db', update_progress (week_update 5) "t" db = (Ok resp, db') /\
      (1000 < pr_progress_percentage resp)%Z.
Proof.
  cbn zeta.
  assert (reachable (apply_updates (week_update <$> [1; 2; 3; 4]%Z) example_store)) as Hr.
  { apply run_updates_reachable, example_store_reachable. }
  eexists. split; [exact Hr |]. split; [reflexivity |].
  assert ((1 <= 4 <= 4)%nat /\ (5%Z ∉ [1; 2; 3; 4]%Z)) as [Ht Hw].
  { split; [lia | apply (bool_decide_unpack _); vm_compute; exact I]. }
  split; [vm_compute; exact Ht |]. split; [vm_compute; exact Hw |].
  eapply (update_percentage_over_100 (week_update 5) "t" _ _ Hr); [reflexivity | vm_compute; exact Ht | vm_compute; exact Hw].
Defined.

Lemma generate_empty_themes_witness :
  (forall req, empty_service req =
     AIResponse 200 (AIObject (mk_structure (Some "T") (Some "O") (Some []) None None))) /\
  py_truthy_str (Some "key") = true /\ roadmap_id (week_update 1) = "abcd1234" /\
  exists r, generate_roadmap empty_service (Some "key") example_input "abcd1234" "t0"
      "ffff0000" "t1" (∅ : db_t) = (Ok r, store_insert "abcd1234" (mk_entry r init_progress "t0") ∅) /\
    rm_weekly_plan r = [] /\
    exists resp db', update_progress (week_update 1) "t2"
        (store_insert "abcd1234" (mk_entry r init_progress "t0") (∅ : db_t)) = (Ok resp, db') /\
      pr_progress_percentage resp = 0%Z /\ pr_total_weeks resp = 0.
Proof.
  assert (forall req, empty_service req =
     AIResponse 200 (AIObject (mk_structure (Some "T") (Some "O") (Some []) None None))) as Hs
    by reflexivity.
  split; [exact Hs |]. split; [reflexivity |]. split; [reflexivity |].
  apply (generate_empty_themes empty_service "T" "O" None None Hs); reflexivity.
Defined.

End Registry.
